(** * bond_coupons: coupon schedules, yields and the monthly coupon report

    A shallow embedding of [bonds.py] and the properties of its
    specification.

    Modelling conventions.
    - A [datetime.date] is its proleptic Gregorian ordinal
      ([date.toordinal()]), an integer between 1 and [_MAXORDINAL];
      comparison of dates is comparison of ordinals, and adding a
      [timedelta] adds its days and raises [OverflowError] outside the
      range, as [date.__add__] does.
    - A [Decimal] is the rational number it denotes.  Arithmetic is exact:
      the rounding of the decimal context to 28 significant digits, its
      exponent limits, infinities and NaNs are outside the model.  The two
      signals of a division by zero are kept apart: [x / 0] raises
      [DivisionByZero] when [x] is not zero and [InvalidOperation]
      (division undefined) when it is.
    - Exceptions are values of [exn]; a computation returns [Ok v], raises
      ([Raise e]), or runs out of the fuel that bounds the number of
      iterations of a [while] loop ([OutOfFuel]).
    - A pandas [DataFrame] indexed by date is the list of its rows, each
      with one cell per column, with the labels and the dtypes of its
      columns; a missing cell (NaN) is [None].  [pd.to_datetime] fails as
      pandas does: on a date that [datetime64[ns]] does not hold, and on a
      frame in place of a column.  The limits of the [datetime64] index in
      resampling, where the bins are labelled with month ends, are outside
      the model.
    - The report depends on behaviour of pandas that changed with
      version 2.0 ([pd.version]).  Before 2.0, for which the program is
      written, [sum(axis=1)] converts the sums of a row of objects to
      [float64], [resample(...).sum()] keeps the numeric columns only, and
      [merge] warns when its suffixes make two labels equal; from 2.0 on
      the sums stay objects, every column is summed, and [merge] raises
      [MergeError].  Both are modelled, with missing cells skipped.  A
      [float64] sum is kept exact like a [Decimal]; the alias ['M'] is
      that of pandas before 3.0.
    - [utils.secant] is not part of the sources: [yield_to_maturity] takes
      the solver as a parameter, and nothing is stated about its value. *)

From Stdlib Require Import ZArith QArith Qcanon List String Ascii Bool Lia.
From Stdlib Require Import Sorted FinFun Permutation.
From Stdlib Require Import DecimalString.
Import ListNotations.

Open Scope Z_scope.

(** ** Exceptions and results *)

Inductive exn : Set :=
| TypeError
| OverflowError
| DivisionByZero
| InvalidOperation
| MergeError
| ValueError
| OutOfBoundsDatetime.

Inductive result (A : Type) : Type :=
| Ok (a : A)
| Raise (e : exn)
| OutOfFuel.

Arguments Ok {A} a.
Arguments Raise {A} e.
Arguments OutOfFuel {A}.

Definition bind {A B : Type} (r : result A) (k : A -> result B) : result B :=
  match r with
  | Ok a => k a
  | Raise e => Raise e
  | OutOfFuel => OutOfFuel
  end.

Definition fmap {A B : Type} (f : A -> B) (r : result A) : result B :=
  bind r (fun a => Ok (f a)).

Notation "x <- c1 ;; c2" := (bind c1 (fun x => c2))
  (at level 61, c1 at next level, right associativity).

(** The value of a computation that returned, forgetting which exception
    was raised otherwise. *)
Definition returned {A : Type} (r : result A) : option A :=
  match r with
  | Ok a => Some a
  | _ => None
  end.

(** A computation has finished when it returned or raised. *)
Definition finished {A : Type} (r : result A) : bool :=
  match r with
  | OutOfFuel => false
  | _ => true
  end.

(** ** Python values, as far as [isinstance(other, int)] tells them apart *)

Inductive value : Type :=
| VInt (z : Z)
| VBool (b : bool)
| VFloat (mantissa exponent : Z)
| VDecimal (q : Qc)
| VStr (s : string)
| VNone.

(** [bool] is a subclass of [int]. *)
Definition isinstance_int (v : value) : bool :=
  match v with
  | VInt _ | VBool _ => true
  | _ => false
  end.

(** ** [decimal.Decimal] *)

Module decimal.

Definition Decimal : Set := Qc.

Definition of_int (z : Z) : Decimal := Q2Qc (inject_Z z).

(** [Decimal('39.59')] is [lit 3959 2]: the coefficient and the number of
    digits after the point. *)
Definition lit (c : Z) (e : nat) : Decimal :=
  Q2Qc (inject_Z c / inject_Z (10 ^ Z.of_nat e)).

Definition is_zero (x : Decimal) : bool := Qc_eq_bool x (of_int 0).

Definition add (x y : Decimal) : Decimal := (x + y)%Qc.
Definition sub (x y : Decimal) : Decimal := (x - y)%Qc.
Definition mul (x y : Decimal) : Decimal := (x * y)%Qc.

(** [Decimal.__truediv__]: the special cases for zeroes come first. *)
Definition truediv (x y : Decimal) : result Decimal :=
  if is_zero y then
    if is_zero x then Raise InvalidOperation else Raise DivisionByZero
  else Ok (x / y)%Qc.

(** [Decimal.__pow__] with a non-negative [int] exponent: [0 ** 0] is an
    invalid operation. *)
Definition pow (x : Decimal) (n : nat) : result Decimal :=
  if is_zero x && Nat.eqb n 0 then Raise InvalidOperation
  else Ok (Qcpower x n).

End decimal.

(** ** [datetime] *)

Module datetime.

Definition _MAXORDINAL : Z := 3652059.

Definition date : Set := Z.

Definition _is_leap (year : Z) : bool :=
  (year mod 4 =? 0) && (negb (year mod 100 =? 0) || (year mod 400 =? 0)).

Definition _days_before_year (year : Z) : Z :=
  let y := year - 1 in
  y * 365 + y / 4 - y / 100 + y / 400.

Definition _DAYS_IN_MONTH : list Z :=
  [-1; 31; 28; 31; 30; 31; 30; 31; 31; 30; 31; 30; 31].

Definition _DAYS_BEFORE_MONTH : list Z :=
  [-1; 0; 31; 59; 90; 120; 151; 181; 212; 243; 273; 304; 334].

Definition item (l : list Z) (i : Z) : Z := nth (Z.to_nat i) l 0.

Definition _days_before_month (year month : Z) : Z :=
  item _DAYS_BEFORE_MONTH month
  + (if (2 <? month) && _is_leap year then 1 else 0).

Definition _ymd2ord (year month day : Z) : Z :=
  _days_before_year year + _days_before_month year month + day.

Definition _DI400Y : Z := Eval cbv in _days_before_year 401.
Definition _DI100Y : Z := Eval cbv in _days_before_year 101.
Definition _DI4Y : Z := Eval cbv in _days_before_year 5.

Definition _ord2ymd (n : Z) : Z * Z * Z :=
  let n := n - 1 in
  let n400 := n / _DI400Y in
  let n := n mod _DI400Y in
  let year := n400 * 400 + 1 in
  let n100 := n / _DI100Y in
  let n := n mod _DI100Y in
  let n4 := n / _DI4Y in
  let n := n mod _DI4Y in
  let n1 := n / 365 in
  let n := n mod 365 in
  let year := year + (n100 * 100 + n4 * 4 + n1) in
  if (n1 =? 4) || (n100 =? 4) then (year - 1, 12, 31)
  else
    let leapyear := (n1 =? 3) && (negb (n4 =? 24) || (n100 =? 3)) in
    let month := Z.shiftr (n + 50) 5 in
    let preceding :=
      item _DAYS_BEFORE_MONTH month
      + (if (2 <? month) && leapyear then 1 else 0) in
    if n <? preceding then
      let month := month - 1 in
      let preceding :=
        preceding
        - (item _DAYS_IN_MONTH month
           + (if (month =? 2) && leapyear then 1 else 0)) in
      (year, month, n - preceding + 1)
    else (year, month, n - preceding + 1).

(** [datetime.date(year, month, day)], for a date of the calendar. *)
Definition mkdate (year month day : Z) : date := _ymd2ord year month day.

(** [datetime.timedelta(days)], which keeps the number of days. *)
Definition timedelta (days : Z) : result Z :=
  if 999999999 <? Z.abs days then Raise OverflowError else Ok days.

(** [date.__add__]. *)
Definition date_add (d : date) (days : Z) : result date :=
  let o := d + days in
  if (0 <? o) && (o <=? _MAXORDINAL) then Ok o else Raise OverflowError.

Definition year_month (d : date) : Z * Z :=
  let '(y, m, _) := _ord2ymd d in (y, m).

End datetime.

(** ** [pandas], as far as the report uses it *)

Module pd.

(** A cell of a column; [None] is the missing value NaN. *)
Definition cell : Set := option decimal.Decimal.

Definition row : Set := (datetime.date * list cell)%type.

(** The dtype of a column: Python objects, as the [Decimal]s of a bond
    are, or [float64]. *)
Inductive dtype : Set := object_ | float64.

Definition is_numeric (t : dtype) : bool :=
  match t with
  | float64 => true
  | object_ => false
  end.

(** A frame indexed by date: the labels and the dtypes of its columns, and
    its rows in order. *)
Record DataFrame : Set := mkDataFrame {
  columns : list string;
  dtypes : list dtype;
  rows : list row
}.

(** The versions of pandas differ in two defaults that the report meets.
    Before 2.0 the sums of rows of objects are converted to [float64], and
    [resample(...).sum()] keeps the numeric columns only; from 2.0 on the
    sums of objects stay objects, and every column is summed. *)
Inductive version : Set := pandas1 | pandas2.

Definition sum_dtype (v : version) : dtype :=
  match v with
  | pandas1 => float64
  | pandas2 => object_
  end.

Definition numeric_only (v : version) : bool :=
  match v with
  | pandas1 => true
  | pandas2 => false
  end.

(** A series: values under the labels of an index. *)
Definition Series (L : Set) : Set := list (L * decimal.Decimal).

Definition len (df : DataFrame) : nat := List.length (rows df).

Definition index (df : DataFrame) : list datetime.date :=
  map fst (rows df).

(** *** [pd.to_datetime(df['date'])] *)

(** [df['date']] in a frame of the columns [date] and [label]: the column
    of the dates, or, when the label is [date] too, the frame of both
    columns. *)
Inductive selection : Set :=
| a_column (dates : list datetime.date)
| two_columns.

Definition getitem_date (label : string) (dates : list datetime.date)
    : selection :=
  if String.eqb label "date" then two_columns else a_column dates.

(** 1970-01-01, the day from which [datetime64[ns]] counts. *)
Definition _EPOCH : Z := Eval cbv in datetime._ymd2ord 1970 1 1.

Definition _NS_PER_DAY : Z := 86400000000000.

(** The largest [int64]; the smallest one stands for NaT. *)
Definition _INT64_MAX : Z := 9223372036854775807.

(** A date that [datetime64[ns]] holds: the nanoseconds of its midnight
    fit an [int64]. *)
Definition in_bounds (d : datetime.date) : bool :=
  Z.abs ((d - _EPOCH) * _NS_PER_DAY) <=? _INT64_MAX.

(** [pd.to_datetime]: a column of dates becomes a column of [datetime64[ns]]
    with the same days, when it holds them all; a frame is assembled from
    columns [year], [month] and [day], which a frame of two columns [date]
    has not. *)
Definition to_datetime (arg : selection) : result (list datetime.date) :=
  match arg with
  | two_columns => Raise ValueError
  | a_column dates =>
      if forallb in_bounds dates then Ok dates
      else Raise OutOfBoundsDatetime
  end.

(** *** [pd.merge(left, right, on='date', how='outer', sort=True)] *)

(** The distinct keys of both sides, in increasing order. *)
Fixpoint insert_key (k : Z) (l : list Z) : list Z :=
  match l with
  | [] => [k]
  | x :: l' =>
      if k <? x then k :: l
      else if k =? x then l
      else x :: insert_key k l'
  end.

Definition sorted_keys (l : list Z) : list Z := fold_right insert_key [] l.

Definition select (k : datetime.date) (rs : list row) : list row :=
  filter (fun r => fst r =? k) rs.

Definition nans (width : nat) : list cell := repeat None width.

(** The rows of the result under one key: every pairing of the rows of
    the two sides, or the rows of the one side that has the key, the
    cells of the other side missing. *)
Definition join_key (wl wr : nat) (ls rs : list row) (k : datetime.date)
    : list row :=
  match select k ls, select k rs with
  | [], rs' => map (fun r => (k, nans wl ++ snd r)) rs'
  | ls', [] => map (fun l => (k, snd l ++ nans wr)) ls'
  | ls', rs' =>
      flat_map (fun l => map (fun r => (k, snd l ++ snd r)) rs') ls'
  end.

Definition mem (c : string) (l : list string) : bool :=
  existsb (String.eqb c) l.

(** A label that both sides have gets the suffix of its side. *)
Definition rename (other : list string) (suffix : string) (c : string)
    : string :=
  if mem c other then c ++ suffix else c.

(** [Index.duplicated()]: every occurrence of a label after its first. *)
Fixpoint duplicated (seen l : list string) : list bool :=
  match l with
  | [] => []
  | c :: l' => mem c seen :: duplicated (c :: seen) l'
  end.

(** The suffixes made two labels of one side equal. *)
Definition suffix_clash (old new : list string) : bool :=
  existsb (fun p => fst p && negb (snd p))
    (combine (duplicated [] new) (duplicated [] old)).

(** What pandas does when the suffixes make two labels of one side
    equal: from 2.0 on it raises [MergeError]; before, it warns and
    returns the frame with its equal labels. *)
Definition suffixes_raise (v : version) : bool :=
  match v with
  | pandas1 => false
  | pandas2 => true
  end.

Definition merge_fails (v : version) (left right : DataFrame) : bool :=
  let llabels := map (rename (columns right) "_x") (columns left) in
  let rlabels := map (rename (columns left) "_y") (columns right) in
  suffixes_raise v
  && (suffix_clash (columns left) llabels
      || suffix_clash (columns right) rlabels).

Definition merge (v : version) (left right : DataFrame)
    : result DataFrame :=
  let llabels := map (rename (columns right) "_x") (columns left) in
  let rlabels := map (rename (columns left) "_y") (columns right) in
  if merge_fails v left right then Raise MergeError
  else
    Ok (mkDataFrame (llabels ++ rlabels) (dtypes left ++ dtypes right)
          (flat_map
             (join_key (List.length (columns left))
                (List.length (columns right)) (rows left) (rows right))
             (sorted_keys (index left ++ index right)))).

(** *** Sums *)

(** The sum of the cells that are present ([skipna]). *)
Definition nansum (cells : list cell) : decimal.Decimal :=
  fold_left
    (fun acc c =>
       match c with
       | Some x => decimal.add acc x
       | None => acc
       end)
    cells (decimal.of_int 0).

(** [df.sum(axis=1)]: the sum of every row. *)
Definition sum_axis1 (df : DataFrame) : Series datetime.date :=
  map (fun r => (fst r, nansum (snd r))) (rows df).

(** [df[label] = s] for a series [s] of dtype [t] with one value per row
    of [df], in the order of the rows: the columns so labelled are
    overwritten, and without one a new last column is added. *)
Definition set_cells (labels : list string) (label : string)
    (v : decimal.Decimal) (cells : list cell) : list cell :=
  if mem label labels then
    map (fun p => if String.eqb (fst p) label then Some v else snd p)
      (combine labels cells)
  else cells ++ [Some v].

Definition setitem (df : DataFrame) (label : string) (t : dtype)
    (s : Series datetime.date) : DataFrame :=
  mkDataFrame
    (if mem label (columns df) then columns df else columns df ++ [label])
    (if mem label (columns df) then
       map (fun p => if String.eqb (fst p) label then t else snd p)
         (combine (columns df) (dtypes df))
     else dtypes df ++ [t])
    (map (fun p => (fst (fst p),
                    set_cells (columns df) label (snd (snd p))
                      (snd (fst p))))
       (combine (rows df) s)).

(** *** [df.resample('M').sum()] *)

(** Months are counted from year 0: month [m] of year [y] is
    [12 * y + (m - 1)]. *)
Definition month_number (d : datetime.date) : Z :=
  let ym := datetime.year_month d in 12 * fst ym + (snd ym - 1).

Definition range (lo hi : Z) : list Z :=
  map (fun i => lo + Z.of_nat i) (seq 0 (Z.to_nat (hi - lo + 1))).

(** One bin for every month from the month of the first date to the
    month of the last one, those without a row too. *)
Definition bins (dates : list datetime.date) : list Z :=
  match dates with
  | [] => []
  | d :: l =>
      range (month_number (fold_left Z.min l d))
        (month_number (fold_left Z.max l d))
  end.

Definition column (j : nat) (rs : list row) : list cell :=
  map (fun r => nth j (snd r) None) rs.

Definition in_month (k : Z) (rs : list row) : list row :=
  filter (fun r => month_number (fst r) =? k) rs.

(** What a mask keeps of the entries of a row, one entry per column. *)
Definition keep {A : Type} (mask : list bool) (l : list A) : list A :=
  map snd (filter fst (combine mask l)).

(** [df._get_numeric_data()]: the columns of a numeric dtype. *)
Definition _get_numeric_data (df : DataFrame) : DataFrame :=
  let mask := map is_numeric (dtypes df) in
  mkDataFrame (keep mask (columns df)) (keep mask (dtypes df))
    (map (fun r => (fst r, keep mask (snd r))) (rows df)).

(** The frame of the sums of the columns in every bin: of the numeric
    columns with [numeric_only], of every column without.  pandas labels
    a bin with the last day of its month; here the label is the number
    of the month. *)
Definition resample_M_sum (numeric_only : bool) (df : DataFrame)
    : DataFrame :=
  let df := if numeric_only then _get_numeric_data df else df in
  mkDataFrame (columns df) (dtypes df)
    (map (fun k =>
            (k,
             map (fun j => Some (nansum (column j (in_month k (rows df)))))
               (seq 0 (List.length (columns df)))))
       (bins (index df))).

(** *** [index.strftime('%Y/%m')] *)

Definition digit (z : Z) : string :=
  String (ascii_of_nat (48 + Z.to_nat (z mod 10))) EmptyString.

(** The text of month number [k]: four digits of the year, two of the
    month. *)
Definition strftime_Y_m (k : Z) : string :=
  let y := k / 12 in
  let m := k mod 12 + 1 in
  digit (y / 1000) ++ digit (y / 100) ++ digit (y / 10) ++ digit y
  ++ "/" ++ digit (m / 10) ++ digit m.

(** The text of the month of a date. *)
Definition month_label (d : datetime.date) : string :=
  strftime_Y_m (month_number d).

End pd.

(** ** Constants of the module *)

Definition TO_PERCENT : Z := 100.
Definition DAYS_PER_YEAR : Z := 365.

(** [str] of an [int]. *)
Definition str_int (z : Z) : string := NilZero.string_of_int (Z.to_int z).

(** ** class Bond *)

Module Bond.

(** The attributes that [__init__] sets; [face_value] and [coupon] are
    the values of [Decimal(face_value)] and [Decimal(coupon)]. *)
Record t : Set := mk {
  name : string;
  face_value : decimal.Decimal;
  coupon : decimal.Decimal;
  coupon_days : Z;
  first_coupon_date : datetime.date;
  maturity_date : datetime.date
}.

(** The number an [int] or a [bool] stands for, and its text in an
    f-string. *)
Definition int_of (other : value) : Z :=
  match other with
  | VInt z => z
  | VBool true => 1
  | _ => 0
  end.

Definition format (other : value) : string :=
  match other with
  | VInt z => str_int z
  | VBool true => "True"
  | VBool false => "False"
  | _ => ""
  end.

Definition __mul__ (self : t) (other : value) : result t :=
  if isinstance_int other then
    Ok (mk (name self ++ "*" ++ format other)
           (decimal.mul (face_value self) (decimal.of_int (int_of other)))
           (decimal.mul (coupon self) (decimal.of_int (int_of other)))
           (coupon_days self)
           (first_coupon_date self) (maturity_date self))
  else Raise TypeError.

Definition __rmul__ (self : t) (other : value) : result t :=
  __mul__ self other.

Definition coupon_per_year (self : t) : result decimal.Decimal :=
  decimal.truediv
    (decimal.mul (coupon self) (decimal.of_int DAYS_PER_YEAR))
    (decimal.of_int (coupon_days self)).

Definition coupon_rate (self : t) : result decimal.Decimal :=
  cpy <- coupon_per_year self ;;
  decimal.truediv cpy (face_value self).

(** The loop of [coupon_payments]: [dates] is the list built so far. *)
Fixpoint coupon_payments_loop (fuel : nat) (self : t)
    (coupon_date : datetime.date)
    (dates : list (datetime.date * decimal.Decimal))
    {struct fuel} : result (list (datetime.date * decimal.Decimal)) :=
  if coupon_date <=? maturity_date self then
    match fuel with
    | O => OutOfFuel
    | S fuel' =>
        let dates := dates ++ [(coupon_date, coupon self)] in
        delta <- datetime.timedelta (coupon_days self) ;;
        coupon_date <- datetime.date_add coupon_date delta ;;
        coupon_payments_loop fuel' self coupon_date dates
    end
  else Ok dates.

(** The lines after the loop: the frame of the columns [date] and
    [name], its dates converted by [pd.to_datetime] and made the index. *)
Definition to_frame (self : t)
    (dates : list (datetime.date * decimal.Decimal))
    : result pd.DataFrame :=
  index <- pd.to_datetime (pd.getitem_date (name self) (map fst dates)) ;;
  Ok (pd.mkDataFrame [name self] [pd.object_]
        (combine index (map (fun p => [Some (snd p)]) dates))).

Definition coupon_payments (fuel : nat) (self : t) : result pd.DataFrame :=
  dates <- coupon_payments_loop fuel self (first_coupon_date self) [] ;;
  to_frame self dates.

(** The loop of [n]. *)
Fixpoint n_loop (fuel : nat) (self : t) (coupon_date : datetime.date)
    (n : nat) {struct fuel} : result nat :=
  if coupon_date <=? maturity_date self then
    match fuel with
    | O => OutOfFuel
    | S fuel' =>
        delta <- datetime.timedelta (coupon_days self) ;;
        coupon_date <- datetime.date_add coupon_date delta ;;
        n_loop fuel' self coupon_date (n + 1)%nat
    end
  else Ok n.

Definition n (fuel : nat) (self : t) : result nat :=
  n_loop fuel self (first_coupon_date self) 0%nat.

End Bond.

(** ** class BondDeal *)

Module BondDeal.

Record t : Set := mk {
  bond : Bond.t;
  price : decimal.Decimal
}.

Definition current_yield (self : t) : result decimal.Decimal :=
  cpy <- Bond.coupon_per_year (bond self) ;;
  decimal.truediv cpy (price self).

Definition _yield_to_maturity_function (fuel : nat) (self : t)
    (ytm : decimal.Decimal) : result decimal.Decimal :=
  let one := decimal.of_int 1 in
  n1 <- Bond.n fuel (bond self) ;;
  p1 <- decimal.pow (decimal.add one ytm) n1 ;;
  i1 <- decimal.truediv one p1 ;;
  q1 <- decimal.truediv (decimal.sub one i1) ytm ;;
  n2 <- Bond.n fuel (bond self) ;;
  p2 <- decimal.pow (decimal.add one ytm) n2 ;;
  q2 <- decimal.truediv (Bond.face_value (bond self)) p2 ;;
  Ok (decimal.sub
        (decimal.add (decimal.mul (Bond.coupon (bond self)) q1) q2)
        (price self)).

Section Solver.

(** [utils.secant(f, x0, x1, iterations)], of a module that is not part
    of the sources. *)
Variable secant :
  (decimal.Decimal -> result decimal.Decimal) ->
  decimal.Decimal -> decimal.Decimal -> Z -> result decimal.Decimal.

Definition yield_to_maturity (fuel : nat) (self : t)
    : result decimal.Decimal :=
  r <- secant (_yield_to_maturity_function fuel self)
         (decimal.lit 1 6) (decimal.of_int 1) 100 ;;
  decimal.truediv (decimal.mul r (decimal.of_int DAYS_PER_YEAR))
    (decimal.of_int (Bond.coupon_days (bond self))).

End Solver.

End BondDeal.

(** ** The bonds of the demonstration *)

Definition ofz_29012 : Bond.t :=
  Bond.mk "OFZ_29012" (decimal.of_int 1000) (decimal.lit 3959 2) 182
    (datetime.mkdate 2019 11 20) (datetime.mkdate 2022 11 16).

Definition ofz_26220 : Bond.t :=
  Bond.mk "OFZ_26220" (decimal.of_int 1000) (decimal.lit 369 1) 182
    (datetime.mkdate 2019 12 11) (datetime.mkdate 2022 12 7).

(** ** class BondCollection *)

Module BondCollection.

Record t : Set := mk { bonds : list Bond.t }.

(** [[b.coupon_payments for b in self.bonds]] *)
Fixpoint coupon_frames (fuel : nat) (bs : list Bond.t)
    : result (list pd.DataFrame) :=
  match bs with
  | [] => Ok []
  | b :: bs' =>
      df <- Bond.coupon_payments fuel b ;;
      dfs <- coupon_frames fuel bs' ;;
      Ok (df :: dfs)
  end.

(** [functools.reduce] without an initial value. *)
Definition reduce {A : Type} (f : A -> A -> result A) (l : list A)
    : result A :=
  match l with
  | [] => Raise TypeError
  | x :: l' => fold_left (fun acc y => a <- acc ;; f a y) l' (Ok x)
  end.

(** The series that [print_all_coupons] prints. *)
Definition print_all_coupons (v : pd.version) (fuel : nat) (self : t)
    : result (pd.Series string) :=
  dfs <- coupon_frames fuel (bonds self) ;;
  merged <- reduce (pd.merge v) dfs ;;
  let merged :=
    pd.setitem merged "total" (pd.sum_dtype v) (pd.sum_axis1 merged) in
  let grouped :=
    pd.sum_axis1 (pd.resample_M_sum (pd.numeric_only v) merged) in
  let grouped := map (fun p => (pd.strftime_Y_m (fst p), snd p)) grouped in
  let grouped :=
    filter (fun p => negb (decimal.is_zero (snd p))) grouped in
  Ok grouped.

End BondCollection.

(** A bond whose period does not divide the span from the first coupon
    date to maturity. *)
Definition quarterly : Bond.t :=
  Bond.mk "Q" (decimal.of_int 1000) (decimal.of_int 10) 91
    (datetime.mkdate 2020 1 15) (datetime.mkdate 2020 12 31).

(** The bond of the scenario with its two dates exchanged. *)
Definition matured : Bond.t :=
  Bond.mk "M" (decimal.of_int 1000) (decimal.lit 3959 2) 182
    (datetime.mkdate 2022 11 16) (datetime.mkdate 2019 11 20).

(** Two bonds with one payment each, in different months. *)
Definition january : Bond.t :=
  Bond.mk "X" (decimal.of_int 1000) (decimal.of_int 10) 182
    (datetime.mkdate 2020 1 15) (datetime.mkdate 2020 1 15).

Definition february : Bond.t :=
  Bond.mk "Y" (decimal.of_int 1000) (decimal.of_int 7) 182
    (datetime.mkdate 2020 2 10) (datetime.mkdate 2020 2 10).

(** The portfolio of the demonstration. *)
Definition bonds_collection : result BondCollection.t :=
  b1 <- Bond.__rmul__ ofz_29012 (VInt 10) ;;
  b2 <- Bond.__rmul__ ofz_26220 (VInt 15) ;;
  Ok (BondCollection.mk [b1; b2]).

(** ** Words of the specification *)

(** A date of the calendar. *)
Definition valid_date (d : datetime.date) : Prop :=
  0 < d <= datetime._MAXORDINAL.

(** The [i]-th date of the stepping rule: [i] periods after the first
    coupon date. *)
Definition nth_date (b : Bond.t) (i : nat) : datetime.date :=
  Bond.first_coupon_date b + Z.of_nat i * Bond.coupon_days b.

(** The first [k] dates of the stepping rule with the coupon. *)
Definition schedule (b : Bond.t) (k : nat)
    : list (datetime.date * decimal.Decimal) :=
  map (fun i => (nth_date b i, Bond.coupon b)) (seq 0 k).

(** The table of a list of payments. *)
Definition frame_of (b : Bond.t)
    (l : list (datetime.date * decimal.Decimal)) : pd.DataFrame :=
  pd.mkDataFrame [Bond.name b] [pd.object_]
    (map (fun p => (fst p, [Some (snd p)])) l).

(** The number of dates the stepping rule generates up to maturity. *)
Definition periods (b : Bond.t) : nat :=
  if Bond.first_coupon_date b <=? Bond.maturity_date b then
    Z.to_nat ((Bond.maturity_date b - Bond.first_coupon_date b)
              / Bond.coupon_days b + 1)
  else 0%nat.

(** A deal on a bond without coupon, at price zero. *)
Definition zero_coupon_deal : BondDeal.t :=
  BondDeal.mk
    (Bond.mk "ZC" (decimal.of_int 1000) (decimal.of_int 0) 182
       (datetime.mkdate 2019 11 20) (datetime.mkdate 2022 11 16))
    (decimal.of_int 0).

(** A deal on the bond of the scenario at 98 per cent of its face value. *)
Definition ofz_29012_deal : BondDeal.t :=
  BondDeal.mk ofz_29012 (decimal.of_int 980).

(** The annualized coupon of the specification. *)
Definition annual_coupon (b : Bond.t) : decimal.Decimal :=
  (Bond.coupon b * decimal.of_int 365
   / decimal.of_int (Bond.coupon_days b))%Qc.

(** The amount of a cell, zero for a missing one. *)
Definition cellval (c : pd.cell) : decimal.Decimal :=
  match c with Some x => x | None => 0%Qc end.

(** The sum of a list of amounts. *)
Definition total (l : list decimal.Decimal) : decimal.Decimal :=
  fold_right Qcplus 0%Qc l.

(** The sum of the cells of a list of rows. *)
Definition rowsum (rs : list pd.row) : decimal.Decimal :=
  total (map (fun r => pd.nansum (snd r)) rs).

(** What a table pays in month [k]: the sum of the cells of its rows of
    that month.  In the table of a bond these are its coupons of the
    month. *)
Definition paid_in_month (k : Z) (df : pd.DataFrame) : decimal.Decimal :=
  rowsum (pd.in_month k (pd.rows df)).

(** Every row of a frame has a cell for every column. *)
Definition widths (df : pd.DataFrame) : Prop :=
  Forall (fun r => List.length (snd r) = List.length (pd.columns df))
    (pd.rows df).

(** A frame without a column of the label [total]. *)
Definition plain (df : pd.DataFrame) : Prop :=
  ~ In "total"%string (pd.columns df).

(** A frame of a bond, or of a merge of such frames: no date twice, a
    cell for every column in every row, every column of objects, and at
    most one column with the label [total]. *)
Definition sound (df : pd.DataFrame) : Prop :=
  NoDup (pd.index df) /\ widths df
  /\ pd.dtypes df = repeat pd.object_ (List.length (pd.columns df))
  /\ (count_occ string_dec (pd.columns df) "total"%string <= 1)%nat.

(** A bond whose dates [pd.to_datetime] converts: it is not named [date],
    and its first coupon date and its maturity are dates of
    [datetime64[ns]]. *)
Definition datable (b : Bond.t) : Prop :=
  Bond.name b <> "date"%string
  /\ pd.in_bounds (Bond.first_coupon_date b) = true
  /\ pd.in_bounds (Bond.maturity_date b) = true.

(** A bond of the year 2300, which [datetime64[ns]] does not reach, and a
    bond with the name of the column of the dates, its first coupon date
    after its maturity. *)
Definition late : Bond.t :=
  Bond.mk "L" (decimal.of_int 1000) (decimal.of_int 10) 182
    (datetime.mkdate 2300 1 1) (datetime.mkdate 2300 12 31).

Definition dated : Bond.t :=
  Bond.mk "date" (decimal.of_int 1000) (decimal.lit 3959 2) 182
    (datetime.mkdate 2022 11 16) (datetime.mkdate 2019 11 20).

(** A bond with a period of zero days, and one with a negative period. *)
Definition stalled : Bond.t :=
  Bond.mk "S" (decimal.of_int 1000) (decimal.of_int 10) 0
    (datetime.mkdate 2020 1 15) (datetime.mkdate 2020 12 31).

Definition backwards : Bond.t :=
  Bond.mk "B" (decimal.of_int 1000) (decimal.of_int 10) (-182)
    (datetime.mkdate 2020 1 15) (datetime.mkdate 2020 12 31).

(** The dates of a list of frames. *)
Definition all_dates (dfs : list pd.DataFrame) : list datetime.date :=
  List.concat (map pd.index dfs).

(** The months from that of the earliest date of the frames to that of
    the latest, in order, each with what the frames pay in it, and those
    with the amount zero left out. *)
Definition monthly_sums (dfs : list pd.DataFrame) : pd.Series string :=
  filter (fun p => negb (decimal.is_zero (snd p)))
    (map (fun k =>
            (pd.strftime_Y_m k, total (map (paid_in_month k) dfs)))
       (pd.bins (all_dates dfs))).

(** The same months, each with twice what the frames pay in it. *)
Definition doubled_months (dfs : list pd.DataFrame) : pd.Series string :=
  filter (fun p => negb (decimal.is_zero (snd p)))
    (map (fun k =>
            (pd.strftime_Y_m k,
             (decimal.of_int 2 * total (map (paid_in_month k) dfs))%Qc))
       (pd.bins (all_dates dfs))).

(** The amount that the report has for a month in which the bonds pay
    [s]: [s] before pandas 2.0, twice [s] from 2.0 on. *)
Definition reported (v : pd.version) (s : decimal.Decimal)
    : decimal.Decimal :=
  match v with
  | pd.pandas1 => s
  | pd.pandas2 => (decimal.of_int 2 * s)%Qc
  end.

Definition report_of (v : pd.version) (dfs : list pd.DataFrame)
    : pd.Series string :=
  match v with
  | pd.pandas1 => monthly_sums dfs
  | pd.pandas2 => doubled_months dfs
  end.

(** The month of the day [n] of a year, counted from 0, as [_ord2ymd]
    finds it from its estimate. *)
Definition month_of_day (leapyear : bool) (n : Z) : Z :=
  let month := Z.shiftr (n + 50) 5 in
  let preceding :=
    datetime.item datetime._DAYS_BEFORE_MONTH month
    + (if (2 <? month) && leapyear then 1 else 0) in
  if n <? preceding then month - 1 else month.

(** * Properties *)

(** ** Results *)

Lemma finished_fmap {A B : Type} (f : A -> B) (r : result A) :
  finished (fmap f r) = finished r.
Proof. destruct r; reflexivity. Qed.

(** ** The two loops of a bond *)

Section CouponLoops.

Variable self : Bond.t.

Let days := Bond.coupon_days self.
Let maturity := Bond.maturity_date self.

(** The counter of [n] is the length of the list of [coupon_payments]
    at every iteration. *)
Lemma n_loop_length (fuel : nat) :
  forall d acc,
    Bond.n_loop fuel self d (List.length acc)
    = fmap (@List.length _) (Bond.coupon_payments_loop fuel self d acc).
Proof.
  induction fuel as [|fuel IH]; intros d acc; simpl;
    destruct (d <=? Bond.maturity_date self); try reflexivity.
  destruct (datetime.timedelta (Bond.coupon_days self)) as [delta| |];
    simpl; try reflexivity.
  destruct (datetime.date_add d delta) as [d'| |]; simpl; try reflexivity.
  rewrite <- IH. f_equal. rewrite length_app. reflexivity.
Qed.

(** More fuel does not change the result of a loop that finished. *)
Lemma coupon_payments_loop_more (fuel : nat) :
  forall fuel' d acc,
    (fuel <= fuel')%nat ->
    finished (Bond.coupon_payments_loop fuel self d acc) = true ->
    Bond.coupon_payments_loop fuel' self d acc
    = Bond.coupon_payments_loop fuel self d acc.
Proof.
  induction fuel as [|fuel IH]; intros fuel' d acc Hle Hfin.
  - destruct fuel'; simpl in *;
      destruct (d <=? Bond.maturity_date self); try reflexivity;
      discriminate.
  - destruct fuel' as [|fuel']; [lia|]. simpl in *.
    destruct (d <=? Bond.maturity_date self); try reflexivity.
    destruct (datetime.timedelta (Bond.coupon_days self)) as [delta| |];
      simpl in *; try reflexivity.
    destruct (datetime.date_add d delta) as [d'| |]; simpl in *;
      try reflexivity.
    apply IH; [lia | assumption].
Qed.

(** With a positive period the loop finishes: every iteration moves the
    date towards maturity. *)
Lemma coupon_payments_loop_finishes (fuel : nat) :
  forall d acc,
    0 < days ->
    maturity - d < Z.of_nat fuel ->
    finished (Bond.coupon_payments_loop fuel self d acc) = true.
Proof.
  subst days maturity.
  induction fuel as [|fuel IH]; intros d acc Hdays Hfuel; simpl.
  - destruct (Z.leb_spec d (Bond.maturity_date self)); [lia | reflexivity].
  - destruct (Z.leb_spec d (Bond.maturity_date self)); [|reflexivity].
    unfold datetime.timedelta.
    destruct (999999999 <? Z.abs (Bond.coupon_days self)); simpl;
      [reflexivity|].
    unfold datetime.date_add.
    destruct ((0 <? d + Bond.coupon_days self)
              && (d + Bond.coupon_days self <=? datetime._MAXORDINAL));
      simpl; [|reflexivity].
    apply IH; lia.
Qed.

(** The loop started at [d] with [k] dates up to maturity ahead, the
    next one in the calendar: it appends these [k] dates. *)
Lemma coupon_payments_loop_schedule (k : nat) :
  forall fuel d acc,
    0 < days -> 0 < d ->
    (forall i, (i < k)%nat -> d + Z.of_nat i * days <= maturity) ->
    maturity < d + Z.of_nat k * days ->
    d + Z.of_nat k * days <= datetime._MAXORDINAL ->
    (k <= fuel)%nat ->
    Bond.coupon_payments_loop fuel self d acc
    = Ok (acc ++ map (fun i => (d + Z.of_nat i * days, Bond.coupon self))
                   (seq 0 k)).
Proof.
  subst days maturity.
  induction k as [|k IH]; intros fuel d acc Hdays Hd Hle Hgt Hmax Hfuel.
  - simpl in Hgt. rewrite app_nil_r.
    destruct fuel; simpl;
      destruct (Z.leb_spec d (Bond.maturity_date self)); (lia || reflexivity).
  - destruct fuel as [|fuel]; [lia|]. simpl Bond.coupon_payments_loop.
    assert (H0 := Hle 0%nat ltac:(lia)). simpl in H0.
    destruct (Z.leb_spec d (Bond.maturity_date self)); [|lia].
    unfold datetime.timedelta.
    assert (Hk : d + Bond.coupon_days self
                 <= d + Z.of_nat (S k) * Bond.coupon_days self) by nia.
    unfold datetime._MAXORDINAL in *.
    destruct (Z.ltb_spec 999999999 (Z.abs (Bond.coupon_days self))); [lia|].
    simpl bind. unfold datetime.date_add, datetime._MAXORDINAL.
    destruct (Z.ltb_spec 0 (d + Bond.coupon_days self)); [|lia].
    destruct (Z.leb_spec (d + Bond.coupon_days self) 3652059); [|lia].
    simpl bind.
    rewrite (IH fuel (d + Bond.coupon_days self)); try lia.
    + rewrite <- app_assoc. f_equal. f_equal. simpl.
      rewrite Z.add_0_r. f_equal.
      rewrite <- seq_shift, map_map. apply map_ext. intros i.
      f_equal. lia.
    + intros i Hi. specialize (Hle (S i) ltac:(lia)). lia.
Qed.

(** The same loop when the date after the last one up to maturity is
    beyond the calendar: the addition that would compute it raises. *)
Lemma coupon_payments_loop_overflow (k : nat) :
  forall fuel d acc,
    0 < days -> 0 < d <= datetime._MAXORDINAL ->
    (forall i, (i < k)%nat -> d + Z.of_nat i * days <= maturity) ->
    datetime._MAXORDINAL < d + Z.of_nat k * days ->
    (k <= fuel)%nat ->
    Bond.coupon_payments_loop fuel self d acc = Raise OverflowError.
Proof.
  subst days maturity.
  induction k as [|k IH]; intros fuel d acc Hdays Hd Hle Hmax Hfuel.
  - lia.
  - destruct fuel as [|fuel]; [lia|]. simpl Bond.coupon_payments_loop.
    assert (H0 := Hle 0%nat ltac:(lia)). simpl in H0.
    destruct (Z.leb_spec d (Bond.maturity_date self)); [|lia].
    unfold datetime.timedelta.
    destruct (Z.ltb_spec 999999999 (Z.abs (Bond.coupon_days self)));
      [reflexivity|].
    simpl bind. unfold datetime.date_add.
    destruct (Z.ltb_spec 0 (d + Bond.coupon_days self)); [|reflexivity].
    destruct (Z.leb_spec (d + Bond.coupon_days self) datetime._MAXORDINAL);
      [|reflexivity].
    simpl bind. apply IH; try lia.
    intros i Hi. specialize (Hle (S i) ltac:(lia)). lia.
Qed.

(** [periods] counts the dates of the stepping rule up to maturity. *)
Lemma periods_spec :
  0 < days ->
  (forall i, (i < periods self)%nat -> nth_date self i <= maturity)
  /\ maturity < nth_date self (periods self).
Proof.
  subst days maturity. intros Hdays. unfold periods, nth_date.
  destruct (Z.leb_spec (Bond.first_coupon_date self)
              (Bond.maturity_date self)) as [Hle|Hgt].
  - set (span := Bond.maturity_date self - Bond.first_coupon_date self).
    assert (Hspan : 0 <= span) by (subst span; lia).
    assert (Hq : 0 <= span / Bond.coupon_days self)
      by (apply Z.div_pos; lia).
    assert (Hlo := Z.mul_div_le span _ Hdays).
    assert (Hhi := Z.mul_succ_div_gt span _ Hdays).
    rewrite Z2Nat.id by lia. split.
    + intros i Hi.
      assert (Z.of_nat i <= span / Bond.coupon_days self) by lia.
      subst span. nia.
    + subst span. nia.
  - split; [intros i Hi; lia | simpl; lia].
Qed.

End CouponLoops.

(** The same facts for the two operations of a bond. *)

Lemma finished_bind {A B : Type} (r : result A) (k : A -> result B) :
  finished (bind r k) = true -> finished r = true.
Proof. destruct r; simpl; auto. Qed.

Lemma combine_map_map {A B C : Type} (f : A -> B) (g : A -> C)
    (l : list A) :
  combine (map f l) (map g l) = map (fun x => (f x, g x)) l.
Proof.
  induction l as [|a l IH]; simpl; [reflexivity | now rewrite IH].
Qed.

(** The dates that a loop appends passed its test: none is after
    maturity. *)
Lemma coupon_payments_loop_bounded (self : Bond.t) (fuel : nat) :
  forall d acc res,
    Bond.coupon_payments_loop fuel self d acc = Ok res ->
    exists k,
      res = acc ++ map (fun i => (d + Z.of_nat i * Bond.coupon_days self,
                                  Bond.coupon self)) (seq 0 k)
      /\ Bond.maturity_date self < d + Z.of_nat k * Bond.coupon_days self
      /\ (forall i, (i < k)%nat ->
            d + Z.of_nat i * Bond.coupon_days self
            <= Bond.maturity_date self).
Proof.
  induction fuel as [|fuel IH]; intros d acc res H; simpl in H.
  - destruct (Z.leb_spec d (Bond.maturity_date self)); [discriminate|].
    injection H as <-. exists 0%nat. simpl. rewrite app_nil_r.
    repeat split; lia.
  - destruct (Z.leb_spec d (Bond.maturity_date self)) as [Hle|Hgt].
    + unfold datetime.timedelta, datetime.date_add in H.
      destruct (999999999 <? Z.abs (Bond.coupon_days self));
        [discriminate|].
      cbn [bind] in H.
      destruct ((0 <? d + Bond.coupon_days self)
                && (d + Bond.coupon_days self <=? datetime._MAXORDINAL));
        [|discriminate].
      cbn [bind] in H. apply IH in H. destruct H as [k [Hres [Hk Hall]]].
      exists (S k). split; [|split].
      * rewrite Hres, <- app_assoc. f_equal. simpl. rewrite Z.add_0_r.
        f_equal. rewrite <- seq_shift, map_map. apply map_ext.
        intros i. f_equal. lia.
      * lia.
      * intros [|i] Hi; [simpl; lia|].
        specialize (Hall i ltac:(lia)). lia.
    + injection H as <-. exists 0%nat. simpl. rewrite app_nil_r.
      repeat split; lia.
Qed.

(** The dates of a schedule that the loop returns lie between the first
    coupon date and maturity. *)
Lemma coupon_payments_loop_in_term (self : Bond.t) (fuel : nat)
    (res : list (datetime.date * decimal.Decimal)) :
  Bond.coupon_payments_loop fuel self (Bond.first_coupon_date self) []
  = Ok res ->
  exists k,
    res = schedule self k
    /\ Bond.maturity_date self < nth_date self k
    /\ (forall i, (i < k)%nat ->
          Bond.first_coupon_date self <= nth_date self i
          <= Bond.maturity_date self).
Proof.
  intros H. apply coupon_payments_loop_bounded in H.
  destruct H as [k [-> [Hstop Hall]]]. exists k.
  unfold nth_date. split; [reflexivity|]. split; [exact Hstop|].
  intros i Hi. split; [|now apply Hall].
  assert (H0 := Hall 0%nat ltac:(lia)). nia.
Qed.

(** The dates of [datetime64[ns]]: from 1677-09-22 to 2262-04-11. *)
Lemma in_bounds_spec (d : datetime.date) :
  pd.in_bounds d = true <-> 612412 <= d <= 825914.
Proof.
  unfold pd.in_bounds, pd._EPOCH, pd._NS_PER_DAY, pd._INT64_MAX.
  rewrite Z.leb_le. lia.
Qed.

Example in_bounds_dates :
  datetime.mkdate 1677 9 22 = 612412 /\ datetime.mkdate 2262 4 11 = 825914.
Proof. split; reflexivity. Qed.

(** The table is made from the dates of the loop. *)
Lemma coupon_payments_frame (fuel : nat) (self : Bond.t) :
  Bond.coupon_payments fuel self
  = bind
      (Bond.coupon_payments_loop fuel self (Bond.first_coupon_date self) [])
      (Bond.to_frame self).
Proof. reflexivity. Qed.

(** The three ends of the making of the table. *)
Lemma to_frame_cases (self : Bond.t)
    (dates : list (datetime.date * decimal.Decimal)) :
  Bond.to_frame self dates
  = if String.eqb (Bond.name self) "date" then Raise ValueError
    else if forallb pd.in_bounds (map fst dates)
         then Ok (frame_of self dates)
         else Raise OutOfBoundsDatetime.
Proof.
  unfold Bond.to_frame, pd.getitem_date, frame_of.
  destruct (String.eqb (Bond.name self) "date"); [reflexivity|].
  cbn [pd.to_datetime].
  destruct (forallb pd.in_bounds (map fst dates)); [|reflexivity].
  cbn [bind]. now rewrite combine_map_map.
Qed.

Lemma to_frame_returned (self : Bond.t)
    (dates : list (datetime.date * decimal.Decimal)) (df : pd.DataFrame) :
  Bond.to_frame self dates = Ok df ->
  df = frame_of self dates
  /\ Bond.name self <> "date"%string
  /\ forallb pd.in_bounds (map fst dates) = true.
Proof.
  rewrite to_frame_cases.
  destruct (String.eqb_spec (Bond.name self) "date"); [discriminate|].
  destruct (forallb pd.in_bounds (map fst dates)); [|discriminate].
  intros H. injection H as <-. auto.
Qed.

(** A table that is returned is the table of the dates of the loop. *)
Lemma coupon_payments_returned (fuel : nat) (self : Bond.t)
    (df : pd.DataFrame) :
  Bond.coupon_payments fuel self = Ok df ->
  exists l,
    Bond.coupon_payments_loop fuel self (Bond.first_coupon_date self) []
    = Ok l
    /\ df = frame_of self l
    /\ Bond.name self <> "date"%string
    /\ forallb pd.in_bounds (map fst l) = true.
Proof.
  rewrite coupon_payments_frame.
  destruct (Bond.coupon_payments_loop fuel self _ []) as [l| |];
    try discriminate.
  cbn [bind]. intros H. exists l. split; [reflexivity|].
  now apply to_frame_returned.
Qed.

(** The dates of a bond with its two dates in [datetime64[ns]] are all
    converted. *)
Lemma coupon_payments_datable (self : Bond.t) :
  datable self ->
  forall fuel,
    Bond.coupon_payments fuel self
    = fmap (frame_of self)
        (Bond.coupon_payments_loop fuel self
           (Bond.first_coupon_date self) []).
Proof.
  intros [Hname [Hfirst Hmat]] fuel. rewrite coupon_payments_frame.
  destruct (Bond.coupon_payments_loop fuel self _ []) as [l| |] eqn:Hl;
    try reflexivity.
  cbn [bind fmap]. rewrite to_frame_cases.
  destruct (String.eqb_spec (Bond.name self) "date"); [contradiction|].
  replace (forallb pd.in_bounds (map fst l)) with true; [reflexivity|].
  symmetry. apply forallb_forall. intros d Hd.
  apply coupon_payments_loop_in_term in Hl.
  destruct Hl as [k [-> [_ Hall]]].
  unfold schedule in Hd. rewrite map_map in Hd. cbn [fst] in Hd.
  apply in_map_iff in Hd. destruct Hd as [i [<- Hi]].
  apply in_seq in Hi. specialize (Hall i ltac:(lia)).
  apply in_bounds_spec in Hfirst, Hmat. apply in_bounds_spec. lia.
Qed.

Lemma len_frame_of (b : Bond.t) (l : list (datetime.date * decimal.Decimal)) :
  pd.len (frame_of b l) = List.length l.
Proof. unfold pd.len, frame_of. simpl. apply length_map. Qed.

Lemma n_is_length (fuel : nat) (self : Bond.t) :
  Bond.n fuel self
  = fmap (@List.length _)
      (Bond.coupon_payments_loop fuel self (Bond.first_coupon_date self) []).
Proof. unfold Bond.n. apply (n_loop_length self fuel _ []). Qed.

Lemma coupon_payments_more (self : Bond.t) (fuel fuel' : nat) :
  (fuel <= fuel')%nat ->
  finished (Bond.coupon_payments fuel self) = true ->
  Bond.coupon_payments fuel' self = Bond.coupon_payments fuel self.
Proof.
  intros Hle Hfin. rewrite !coupon_payments_frame in *.
  apply finished_bind in Hfin.
  now rewrite (coupon_payments_loop_more self fuel fuel').
Qed.

Lemma n_more (self : Bond.t) (fuel fuel' : nat) :
  (fuel <= fuel')%nat ->
  finished (Bond.n fuel self) = true ->
  Bond.n fuel' self = Bond.n fuel self.
Proof.
  intros Hle Hfin. rewrite !n_is_length in *.
  rewrite finished_fmap in Hfin.
  now rewrite (coupon_payments_loop_more self fuel fuel').
Qed.

(** Equality of decimals is equality of the rationals they denote. *)
Ltac decimal_eq := apply Qc_is_canon; vm_compute; reflexivity.

(** An equation of decimals that holds in every commutative ring. *)
Lemma decimal_ring_theory :
  @ring_theory decimal.Decimal 0%Qc 1%Qc Qcplus Qcmult Qcminus Qcopp eq.
Proof. exact Qcrt. Qed.

Add Ring decimal_ring_structure : decimal_ring_theory.

(** A case on the first comparison of the goal. *)
Ltac case_eqb :=
  match goal with
  | |- context [Z.eqb ?a ?b] => destruct (Z.eqb_spec a b)
  end.

Ltac decimal_ring :=
  match goal with
  | |- @eq _ ?a ?b =>
      first
        [ ring
        | change (@eq decimal.Decimal a b); ring
        | change (@eq Qc a b); ring
        | change (@eq Qc a b); unfold decimal.Decimal in *; ring ]
  end.

(** ** The count and the schedule agree *)

(** The count is the number of rows of a table that is returned. *)
Lemma n_of_returned (fuel : nat) (self : Bond.t) (df : pd.DataFrame) :
  Bond.coupon_payments fuel self = Ok df ->
  Bond.n fuel self = Ok (pd.len df).
Proof.
  intros H. apply coupon_payments_returned in H.
  destruct H as [l [Hl [-> _]]].
  now rewrite n_is_length, Hl, len_frame_of.
Qed.

(** For a bond with its dates in [datetime64[ns]] the count is the number
    of rows, with any fuel. *)
Lemma n_is_len (fuel : nat) (self : Bond.t) :
  datable self ->
  Bond.n fuel self = fmap pd.len (Bond.coupon_payments fuel self).
Proof.
  intros Hd. rewrite n_is_length, (coupon_payments_datable self Hd).
  destruct (Bond.coupon_payments_loop fuel self _ []); simpl;
    try reflexivity.
  now rewrite len_frame_of.
Qed.

(** C4, as the code has it. The two operations run the same loop, and
    [coupon_payments] then makes the table. A table that [coupon_payments]
    returns has as many rows as [n] counts with the same fuel. Where [n]
    returns a count, [coupon_payments] returns a table of as many rows, or
    the making of the table raises: [ValueError] for a bond named [date],
    [OutOfBoundsDatetime] for a date that [datetime64[ns]] does not hold;
    for a bond with another name and with its first coupon date and its
    maturity in [datetime64[ns]] the two agree in every case. Where [n]
    raises or runs on, [coupon_payments] does the same. With a positive
    period both finish once the fuel exceeds the number of days from the
    first coupon date to maturity. *)
Theorem coupon_payments_len_is_n (self : Bond.t) :
  (forall fuel df,
      Bond.coupon_payments fuel self = Ok df ->
      Bond.n fuel self = Ok (pd.len df))
  /\ (forall fuel k,
        Bond.n fuel self = Ok k ->
        (exists df, Bond.coupon_payments fuel self = Ok df /\ pd.len df = k)
        \/ Bond.coupon_payments fuel self = Raise ValueError
        \/ Bond.coupon_payments fuel self = Raise OutOfBoundsDatetime)
  /\ (datable self ->
      forall fuel,
        Bond.n fuel self = fmap pd.len (Bond.coupon_payments fuel self))
  /\ (forall fuel,
        (forall e, Bond.n fuel self = Raise e ->
                   Bond.coupon_payments fuel self = Raise e)
        /\ (Bond.n fuel self = OutOfFuel ->
            Bond.coupon_payments fuel self = OutOfFuel))
  /\ (0 < Bond.coupon_days self ->
      exists fuel0, forall fuel, (fuel0 <= fuel)%nat ->
        finished (Bond.n fuel self) = true
        /\ finished (Bond.coupon_payments fuel self) = true).
Proof.
  split; [|split; [|split; [|split]]].
  - intros fuel df. apply n_of_returned.
  - intros fuel k. rewrite n_is_length, coupon_payments_frame.
    destruct (Bond.coupon_payments_loop fuel self _ []) as [l| |];
      try discriminate.
    cbn [fmap bind]. intros H. injection H as <-.
    rewrite to_frame_cases.
    destruct (String.eqb (Bond.name self) "date"); [auto|].
    destruct (forallb pd.in_bounds (map fst l)); [|auto].
    left. eexists. split; [reflexivity | apply len_frame_of].
  - intros Hd fuel. now apply n_is_len.
  - intros fuel. rewrite n_is_length, coupon_payments_frame.
    destruct (Bond.coupon_payments_loop fuel self _ []) as [l| |];
      cbn [fmap bind]; split; intros; (discriminate || congruence).
  - intros Hdays.
    exists (S (Z.to_nat (Bond.maturity_date self
                         - Bond.first_coupon_date self))).
    intros fuel Hfuel.
    assert (Hloop : finished
                      (Bond.coupon_payments_loop fuel self
                         (Bond.first_coupon_date self) []) = true)
      by (apply coupon_payments_loop_finishes; (assumption || lia)).
    rewrite n_is_length, coupon_payments_frame, finished_fmap.
    split; [exact Hloop|].
    destruct (Bond.coupon_payments_loop fuel self _ []) as [l| |];
      try discriminate; try reflexivity.
    cbn [bind]. rewrite to_frame_cases.
    destruct (String.eqb (Bond.name self) "date"); [reflexivity|].
    destruct (forallb pd.in_bounds (map fst l)); reflexivity.
Qed.

(** C4 as stated fails: the bond of the year 2300 has three coupon dates by
    the count, and no table: with any fuel [coupon_payments] returns
    nothing, and once the loop has ended it raises
    [OutOfBoundsDatetime]. *)
Lemma late_count_without_table :
  Bond.n 3 late = Ok 3%nat
  /\ Bond.coupon_payments 3 late = Raise OutOfBoundsDatetime
  /\ forall fuel,
       ~ exists df, Bond.coupon_payments fuel late = Ok df.
Proof.
  split; [vm_compute; reflexivity|]. split; [vm_compute; reflexivity|].
  intros fuel [df H]. apply coupon_payments_returned in H.
  destruct H as [l [Hl [_ [_ Hb]]]].
  apply coupon_payments_loop_in_term in Hl.
  destruct Hl as [k [-> [Hstop _]]].
  destruct k as [|k]; [vm_compute in Hstop; discriminate|].
  simpl in Hb. discriminate.
Qed.

(** ** The bond of the scenario *)

Lemma ofz_29012_n (fuel : nat) :
  (7 <= fuel)%nat -> Bond.n fuel ofz_29012 = Ok 7%nat.
Proof.
  intros Hfuel.
  assert (H7 : Bond.n 7 ofz_29012 = Ok 7%nat) by (vm_compute; reflexivity).
  rewrite (n_more ofz_29012 7 fuel Hfuel); [exact H7|].
  rewrite H7. reflexivity.
Qed.

Lemma ofz_29012_datable : datable ofz_29012.
Proof. repeat split; (discriminate || reflexivity). Qed.

(** C2, as the code has it. The bond with face value 1000, coupon 39.59,
    period 182 days, first coupon 2019-11-20 and maturity 2022-11-16
    generates 7 coupon payments: maturity is 1092 = 6 * 182 days after the
    first coupon date, and both ends are paid. *)
Theorem ofz_29012_seven_payments (fuel : nat) (Hfuel : (7 <= fuel)%nat) :
  Bond.n fuel ofz_29012 = Ok 7%nat
  /\ fmap pd.len (Bond.coupon_payments fuel ofz_29012) = Ok 7%nat.
Proof.
  split; [|rewrite <- (n_is_len fuel _ ofz_29012_datable)];
    now apply ofz_29012_n.
Qed.

Lemma ofz_29012_seven_payments_witness :
  (7 <= 7)%nat
  /\ Bond.n 7 ofz_29012 = Ok 7%nat
  /\ fmap pd.len (Bond.coupon_payments 7 ofz_29012) = Ok 7%nat.
Proof. split; [lia | apply (ofz_29012_seven_payments 7); lia]. Defined.

(** C2 as stated fails: no run of [n] on that bond returns 6, and no run of
    [coupon_payments] returns 6 rows. *)
Lemma ofz_29012_not_six_payments :
  ~ (exists fuel,
        Bond.n fuel ofz_29012 = Ok 6%nat
        \/ fmap pd.len (Bond.coupon_payments fuel ofz_29012) = Ok 6%nat).
Proof.
  intros [fuel H]. rewrite <- (n_is_len fuel _ ofz_29012_datable) in H.
  assert (H6 : Bond.n fuel ofz_29012 = Ok 6%nat) by tauto. clear H.
  destruct (Nat.le_gt_cases 7 fuel) as [Hle|Hlt].
  - rewrite (ofz_29012_n fuel Hle) in H6. discriminate.
  - do 7 (destruct fuel as [|fuel]; [vm_compute in H6; discriminate|]). lia.
Qed.

(** The seven dates. *)
Example ofz_29012_dates :
  fmap pd.index (Bond.coupon_payments 7 ofz_29012)
  = Ok [datetime.mkdate 2019 11 20; datetime.mkdate 2020 5 20;
        datetime.mkdate 2020 11 18; datetime.mkdate 2021 5 19;
        datetime.mkdate 2021 11 17; datetime.mkdate 2022 5 18;
        datetime.mkdate 2022 11 16].
Proof. vm_compute. reflexivity. Qed.

(** ** Scaling *)

(** C3, as the code has it. Scaling by a value that is not an [int] raises
    [TypeError], for [b * k] and [k * b] alike, and only then; scaling by
    any [int], zero and negative integers too, returns a bond whose face
    value and coupon are multiplied by it. *)
Theorem scaling_needs_an_int (b : Bond.t) (k : value) :
  (isinstance_int k = false <-> Bond.__mul__ b k = Raise TypeError)
  /\ (isinstance_int k = false <-> Bond.__rmul__ b k = Raise TypeError)
  /\ (forall z : Z,
        Bond.__mul__ b (VInt z)
        = Ok (Bond.mk (Bond.name b ++ "*" ++ str_int z)
                (decimal.mul (Bond.face_value b) (decimal.of_int z))
                (decimal.mul (Bond.coupon b) (decimal.of_int z))
                (Bond.coupon_days b) (Bond.first_coupon_date b)
                (Bond.maturity_date b))).
Proof.
  unfold Bond.__rmul__, Bond.__mul__.
  repeat split; try (destruct (isinstance_int k); congruence).
Qed.

(** C3 as stated fails: scaling by zero and by a negative integer returns
    a bond. *)
Lemma scaling_by_zero_and_negative_returns :
  Bond.__mul__ ofz_29012 (VInt 0)
  = Ok (Bond.mk "OFZ_29012*0" (decimal.of_int 0) (decimal.of_int 0) 182
          (datetime.mkdate 2019 11 20) (datetime.mkdate 2022 11 16))
  /\ Bond.__rmul__ ofz_29012 (VInt (-3))
     = Ok (Bond.mk "OFZ_29012*-3" (decimal.of_int (-3000))
             (decimal.lit (-11877) 2) 182
             (datetime.mkdate 2019 11 20) (datetime.mkdate 2022 11 16)).
Proof.
  split; unfold Bond.__rmul__, Bond.__mul__; simpl; f_equal; f_equal;
    decimal_eq.
Qed.

(** C5. For a positive integer [k] the scaled bond exists, [k * b] and
    [b * k] are the same bond, its face value and coupon are [k] times
    those of [b], and its period and dates are those of [b]. *)
Theorem scaled_bond_fields (b : Bond.t) (k : Z) (Hk : 0 < k) :
  exists b',
    Bond.__rmul__ b (VInt k) = Ok b'
    /\ Bond.__mul__ b (VInt k) = Ok b'
    /\ Bond.face_value b' = (decimal.of_int k * Bond.face_value b)%Qc
    /\ Bond.coupon b' = (decimal.of_int k * Bond.coupon b)%Qc
    /\ Bond.coupon_days b' = Bond.coupon_days b
    /\ Bond.first_coupon_date b' = Bond.first_coupon_date b
    /\ Bond.maturity_date b' = Bond.maturity_date b.
Proof.
  eexists. unfold Bond.__rmul__, Bond.__mul__. simpl.
  repeat split; unfold decimal.mul; apply Qcmult_comm.
Qed.

Lemma scaled_bond_fields_witness :
  0 < 10
  /\ exists b',
       Bond.__rmul__ ofz_29012 (VInt 10) = Ok b'
       /\ Bond.__mul__ ofz_29012 (VInt 10) = Ok b'
       /\ Bond.face_value b'
          = (decimal.of_int 10 * Bond.face_value ofz_29012)%Qc
       /\ Bond.coupon b' = (decimal.of_int 10 * Bond.coupon ofz_29012)%Qc
       /\ Bond.coupon_days b' = Bond.coupon_days ofz_29012
       /\ Bond.first_coupon_date b' = Bond.first_coupon_date ofz_29012
       /\ Bond.maturity_date b' = Bond.maturity_date ofz_29012.
Proof. split; [lia | apply (scaled_bond_fields ofz_29012 10); lia]. Defined.

(** The scenario: ten units have face value 10000 and coupon 395.90. *)
Example ofz_29012_times_10 :
  Bond.__rmul__ ofz_29012 (VInt 10)
  = Ok (Bond.mk "OFZ_29012*10" (decimal.of_int 10000) (decimal.lit 39590 2)
          182 (datetime.mkdate 2019 11 20) (datetime.mkdate 2022 11 16)).
Proof.
  unfold Bond.__rmul__, Bond.__mul__; simpl; f_equal; f_equal; decimal_eq.
Qed.

(** ** The stepping rule *)

Lemma forallb_schedule (self : Bond.t) (k : nat) :
  forallb pd.in_bounds (map fst (schedule self k)) = true
  <-> forall i, (i < k)%nat -> pd.in_bounds (nth_date self i) = true.
Proof.
  unfold schedule. rewrite map_map. cbn [fst]. rewrite forallb_forall.
  split.
  - intros H i Hi. apply H, in_map_iff. exists i. split; [reflexivity|].
    apply in_seq. lia.
  - intros H d Hd. apply in_map_iff in Hd. destruct Hd as [i [<- Hi]].
    apply H. apply in_seq in Hi. lia.
Qed.



(** The table of the bond of the year 2300 is not made. *)
Example late_dates :
  fmap (map fst)
    (Bond.coupon_payments_loop 3 late (Bond.first_coupon_date late) [])
  = Ok [datetime.mkdate 2300 1 1; datetime.mkdate 2300 7 2;
        datetime.mkdate 2300 12 31]
  /\ Bond.coupon_payments 3 late = Raise OutOfBoundsDatetime.
Proof. split; vm_compute; reflexivity. Qed.

(** The last of the four dates of that bond, 2020-10-14, is not its
    maturity, 2020-12-31. *)
Example quarterly_dates :
  fmap pd.index (Bond.coupon_payments 4 quarterly)
  = Ok [datetime.mkdate 2020 1 15; datetime.mkdate 2020 4 15;
        datetime.mkdate 2020 7 15; datetime.mkdate 2020 10 14]
  /\ datetime.mkdate 2020 10 14 <> Bond.maturity_date quarterly.
Proof. split; [vm_compute; reflexivity | vm_compute; discriminate]. Qed.

(** ** First coupon after maturity *)

(** C10, as the code has it. When the first coupon date is after maturity
    the body of neither loop runs, with any fuel and any period, a
    positive one too: [n] returns 0, and [coupon_payments] returns the
    table without rows, unless the bond is named [date]: the making of the
    table then raises [ValueError], with no row to convert. *)
Theorem first_coupon_after_maturity (self : Bond.t)
    (Hafter : Bond.maturity_date self < Bond.first_coupon_date self) :
  forall fuel,
    Bond.n fuel self = Ok 0%nat
    /\ (Bond.name self <> "date"%string ->
        Bond.coupon_payments fuel self = Ok (frame_of self []))
    /\ (Bond.name self = "date"%string ->
        Bond.coupon_payments fuel self = Raise ValueError).
Proof.
  intros fuel.
  assert (Hloop : Bond.coupon_payments_loop fuel self
                    (Bond.first_coupon_date self) [] = Ok []).
  { destruct fuel; simpl;
      destruct (Z.leb_spec (Bond.first_coupon_date self)
                  (Bond.maturity_date self)); (lia || reflexivity). }
  rewrite n_is_length, coupon_payments_frame, Hloop. cbn [fmap bind].
  rewrite to_frame_cases. cbn [map forallb].
  split; [reflexivity|].
  destruct (String.eqb_spec (Bond.name self) "date");
    split; intros; (reflexivity || contradiction).
Qed.

Lemma first_coupon_after_maturity_witness :
  Bond.maturity_date matured < Bond.first_coupon_date matured
  /\ forall fuel,
       Bond.n fuel matured = Ok 0%nat
       /\ (Bond.name matured <> "date"%string ->
           Bond.coupon_payments fuel matured = Ok (frame_of matured []))
       /\ (Bond.name matured = "date"%string ->
           Bond.coupon_payments fuel matured = Raise ValueError).
Proof.
  split; [reflexivity | apply (first_coupon_after_maturity matured)].
  reflexivity.
Defined.

(** C10 as stated fails: the bond named [date] has its first coupon date
    after its maturity, and [coupon_payments] raises [ValueError] with any
    fuel. *)
Lemma dated_after_maturity_raises :
  Bond.maturity_date dated < Bond.first_coupon_date dated
  /\ forall fuel, Bond.coupon_payments fuel dated = Raise ValueError.
Proof.
  split; [reflexivity|]. intros fuel. destruct fuel; reflexivity.
Qed.

(** ** Decimals *)

Lemma is_zero_true (x : decimal.Decimal) :
  decimal.is_zero x = true <-> x = 0%Qc.
Proof.
  unfold decimal.is_zero. split; intros H.
  - apply Qc_eq_bool_correct in H. exact H.
  - subst x. reflexivity.
Qed.

Lemma is_zero_false (x : decimal.Decimal) :
  decimal.is_zero x = false <-> x <> 0%Qc.
Proof.
  rewrite <- is_zero_true. destruct (decimal.is_zero x); split; congruence.
Qed.

Lemma of_int_zero (z : Z) : decimal.of_int z = 0%Qc <-> z = 0.
Proof.
  unfold decimal.of_int. split; intros H.
  - change 0%Qc with (Q2Qc 0) in H. apply Q2Qc_eq_iff in H.
    unfold Qeq in H. simpl in H. lia.
  - subst z. reflexivity.
Qed.

Lemma Qcmult_nonzero (x y : Qc) : x <> 0%Qc -> y <> 0%Qc -> (x * y)%Qc <> 0%Qc.
Proof.
  intros Hx Hy H. apply Qcmult_integral in H. tauto.
Qed.

Lemma Qcdiv_nonzero (x y : Qc) : x <> 0%Qc -> y <> 0%Qc -> (x / y)%Qc <> 0%Qc.
Proof.
  intros Hx Hy H. apply Hx.
  rewrite <- (Qcmult_div_r x y Hy). rewrite H. ring.
Qed.

Lemma Qcpower_nonzero (x : Qc) (n : nat) : x <> 0%Qc -> Qcpower x n <> 0%Qc.
Proof.
  intros Hx. induction n as [|n IH]; simpl.
  - discriminate.
  - now apply Qcmult_nonzero.
Qed.

(** ** Current yield *)

Lemma coupon_per_year_cases (b : Bond.t) :
  Bond.coupon_per_year b
  = if Bond.coupon_days b =? 0 then
      if decimal.is_zero (Bond.coupon b) then Raise InvalidOperation
      else Raise DivisionByZero
    else Ok (annual_coupon b).
Proof.
  unfold Bond.coupon_per_year, decimal.truediv, decimal.mul, annual_coupon,
    DAYS_PER_YEAR.
  destruct (Z.eqb_spec (Bond.coupon_days b) 0) as [H0|H0].
  - rewrite (proj2 (is_zero_true (decimal.of_int (Bond.coupon_days b))))
      by now apply of_int_zero.
    destruct (decimal.is_zero (Bond.coupon b)) eqn:Hc.
    + apply is_zero_true in Hc. rewrite Hc.
      replace (0 * decimal.of_int 365)%Qc with 0%Qc by ring. reflexivity.
    + apply is_zero_false in Hc.
      rewrite (proj2 (is_zero_false _)); [reflexivity|].
      apply Qcmult_nonzero; [assumption|]. now rewrite of_int_zero.
  - rewrite (proj2 (is_zero_false (decimal.of_int (Bond.coupon_days b))));
      [reflexivity|].
    now rewrite of_int_zero.
Qed.

Lemma annual_coupon_zero (b : Bond.t) :
  Bond.coupon_days b <> 0 ->
  (annual_coupon b = 0%Qc <-> Bond.coupon b = 0%Qc).
Proof.
  intros Hdays. unfold annual_coupon. split; intros H.
  - destruct (Qc_eq_dec (Bond.coupon b) 0) as [Hc|Hc]; [exact Hc|].
    exfalso. revert H. apply Qcdiv_nonzero.
    + apply Qcmult_nonzero; [assumption|]. now rewrite of_int_zero.
    + now rewrite of_int_zero.
  - rewrite H. unfold Qcdiv, decimal.Decimal. ring.
Qed.

(** C7, as the code has it. For a deal on a bond with a non-zero period,
    [current_yield] is the annualized coupon, [coupon * 365 / coupon_days],
    divided by the price when the price is not zero. When the price is
    zero the division fails: with [DivisionByZero] when the coupon is not
    zero, and with [InvalidOperation] (0 / 0, division undefined) when it
    is. So it fails with [DivisionByZero] exactly when the price is zero
    and the coupon is not. *)
Theorem current_yield_cases (d : BondDeal.t)
    (Hdays : Bond.coupon_days (BondDeal.bond d) <> 0) :
  (BondDeal.price d <> 0%Qc ->
   BondDeal.current_yield d
   = Ok (annual_coupon (BondDeal.bond d) / BondDeal.price d)%Qc)
  /\ (BondDeal.price d = 0%Qc ->
      Bond.coupon (BondDeal.bond d) = 0%Qc ->
      BondDeal.current_yield d = Raise InvalidOperation)
  /\ (BondDeal.current_yield d = Raise DivisionByZero
      <-> BondDeal.price d = 0%Qc /\ Bond.coupon (BondDeal.bond d) <> 0%Qc).
Proof.
  unfold BondDeal.current_yield. rewrite coupon_per_year_cases.
  destruct (Z.eqb_spec (Bond.coupon_days (BondDeal.bond d)) 0) as [H0|_];
    [contradiction|].
  simpl bind. unfold decimal.truediv.
  assert (Ha := annual_coupon_zero (BondDeal.bond d) Hdays).
  destruct (decimal.is_zero (BondDeal.price d)) eqn:Hp;
    [apply is_zero_true in Hp | apply is_zero_false in Hp];
    (destruct (decimal.is_zero (annual_coupon (BondDeal.bond d))) eqn:Hc;
     [apply is_zero_true in Hc | apply is_zero_false in Hc]).
  all: repeat split; intros; try discriminate; try congruence; try tauto.
Qed.

Lemma current_yield_cases_witness :
  Bond.coupon_days (BondDeal.bond ofz_29012_deal) <> 0
  /\ (BondDeal.price ofz_29012_deal <> 0%Qc ->
      BondDeal.current_yield ofz_29012_deal
      = Ok (annual_coupon (BondDeal.bond ofz_29012_deal)
            / BondDeal.price ofz_29012_deal)%Qc)
  /\ (BondDeal.price ofz_29012_deal = 0%Qc ->
      Bond.coupon (BondDeal.bond ofz_29012_deal) = 0%Qc ->
      BondDeal.current_yield ofz_29012_deal = Raise InvalidOperation)
  /\ (BondDeal.current_yield ofz_29012_deal = Raise DivisionByZero
      <-> BondDeal.price ofz_29012_deal = 0%Qc
          /\ Bond.coupon (BondDeal.bond ofz_29012_deal) <> 0%Qc).
Proof.
  assert (H : Bond.coupon_days (BondDeal.bond ofz_29012_deal) <> 0)
    by (simpl; lia).
  split; [exact H | exact (current_yield_cases ofz_29012_deal H)].
Defined.

(** C7 as stated fails: a bond without coupon bought at price zero has a
    zero price, and its current yield fails with [InvalidOperation], not
    with [DivisionByZero]. *)
Lemma current_yield_zero_by_zero :
  ~ (BondDeal.current_yield zero_coupon_deal = Raise DivisionByZero
     <-> BondDeal.price zero_coupon_deal = decimal.of_int 0).
Proof.
  intros [_ H]. specialize (H eq_refl). vm_compute in H. discriminate.
Qed.

Example current_yield_zero_coupon :
  BondDeal.current_yield zero_coupon_deal = Raise InvalidOperation.
Proof. vm_compute. reflexivity. Qed.

(** The current yield of the bond of the scenario at 980:
    39.59 * 365 / 182 / 980. *)
Example current_yield_ofz_29012 :
  BondDeal.current_yield ofz_29012_deal
  = Ok (Q2Qc (Qmake 289007 3567200)).
Proof.
  unfold BondDeal.current_yield, Bond.coupon_per_year, decimal.truediv.
  simpl. apply f_equal. decimal_eq.
Qed.

(** ** The monthly report *)

Section Report.

Open Scope Qc_scope.

Lemma nansum_acc (cells : list pd.cell) :
  forall acc,
    fold_left
      (fun a c => match c with Some x => decimal.add a x | None => a end)
      cells acc
    = acc + pd.nansum cells.
Proof.
  unfold pd.nansum, decimal.add. change (decimal.of_int 0) with 0.
  induction cells as [|c cells IH]; intros acc; simpl.
  - decimal_ring.
  - rewrite IH. rewrite (IH (match c with Some x => 0 + x | None => 0 end)).
    destruct c; decimal_ring.
Qed.

Lemma nansum_cons (c : pd.cell) (cells : list pd.cell) :
  pd.nansum (c :: cells)
  = match c with Some x => x | None => 0 end + pd.nansum cells.
Proof.
  unfold pd.nansum at 1. simpl. rewrite nansum_acc.
  unfold decimal.add. change (decimal.of_int 0) with 0. destruct c; decimal_ring.
Qed.

(** A month without a row sums to zero in every column, and so across
    the columns. *)
Lemma empty_month_sums_to_zero (js : list nat) :
  pd.nansum (map (fun j => Some (pd.nansum (pd.column j []))) js) = 0.
Proof.
  induction js as [|j js IH]; [reflexivity|].
  cbn [map]. rewrite nansum_cons, IH. unfold pd.column. cbn [map].
  change (pd.nansum []) with 0. decimal_ring.
Qed.

End Report.

(** The index of a frame is kept by the assignment of a column of its own
    row sums. *)
Lemma combine_map_fst {A B : Type} (f : A -> B) (l : list A) :
  map fst (combine l (map f l)) = l.
Proof.
  induction l as [|a l IH]; simpl; [reflexivity | now rewrite IH].
Qed.

Lemma index_setitem_sums (df : pd.DataFrame) (label : string)
    (t : pd.dtype) :
  pd.index (pd.setitem df label t (pd.sum_axis1 df)) = pd.index df.
Proof.
  unfold pd.index, pd.setitem, pd.sum_axis1. simpl.
  rewrite map_map. simpl.
  rewrite <- (map_map fst fst). rewrite combine_map_fst. reflexivity.
Qed.

(** The keys of a merge are keys of one of its sides. *)
Lemma insert_key_in (k x : Z) (l : list Z) :
  In x (pd.insert_key k l) -> x = k \/ In x l.
Proof.
  induction l as [|y l IH]; simpl.
  - intros [H|[]]. now left.
  - destruct (k <? y).
    + simpl. intros [H|[H|H]]; auto.
    + destruct (k =? y); simpl.
      * intros [H|H]; auto.
      * intros [H|H]; auto. destruct (IH H); auto.
Qed.

Lemma sorted_keys_in (x : Z) (l : list Z) :
  In x (pd.sorted_keys l) -> In x l.
Proof.
  induction l as [|k l IH]; simpl; [tauto|].
  intros H. apply insert_key_in in H. destruct H; auto.
Qed.

Lemma join_key_fst (wl wr : nat) (ls rs : list pd.row) (k : Z) (r : pd.row) :
  In r (pd.join_key wl wr ls rs k) -> fst r = k.
Proof.
  unfold pd.join_key.
  destruct (pd.select k ls) as [|l ls'];
    [|destruct (pd.select k rs) as [|r' rs']].
  - intros H. apply in_map_iff in H. destruct H as [x [<- _]]. reflexivity.
  - intros H. apply in_map_iff in H. destruct H as [x [<- _]]. reflexivity.
  - intros H. apply in_flat_map in H. destruct H as [x [_ H]].
    apply in_map_iff in H. destruct H as [y [<- _]]. reflexivity.
Qed.

Lemma index_merge {v : pd.version} (left right merged : pd.DataFrame) (d : Z) :
  pd.merge v left right = Ok merged ->
  In d (pd.index merged) ->
  In d (pd.index left) \/ In d (pd.index right).
Proof.
  unfold pd.merge. destruct (pd.merge_fails _ _ _); [discriminate|].
  intros H. injection H as <-. unfold pd.index at 1. simpl.
  intros H. apply in_map_iff in H. destruct H as [r [<- H]].
  apply in_flat_map in H. destruct H as [k [Hk H]].
  apply join_key_fst in H. rewrite H.
  apply sorted_keys_in in Hk. apply in_app_or in Hk. exact Hk.
Qed.

(** A key of the frame that [reduce] returns is a key of one of the
    frames. *)
Lemma fold_merge_not_ok {v : pd.version} (l : list pd.DataFrame)
    (r : result pd.DataFrame) (m : pd.DataFrame) :
  fold_left (fun acc y => a <- acc ;; pd.merge v a y) l r = Ok m ->
  exists x, r = Ok x.
Proof.
  revert r. induction l as [|y l IH]; intros r H; simpl in H.
  - now exists m.
  - apply IH in H. destruct H as [x H]. destruct r; try discriminate.
    eauto.
Qed.

Lemma index_fold_merge {v : pd.version} (l : list pd.DataFrame) :
  forall (x m : pd.DataFrame) (d : Z),
    fold_left (fun acc y => a <- acc ;; pd.merge v a y) l (Ok x) = Ok m ->
    In d (pd.index m) ->
    In d (pd.index x) \/ exists df, In df l /\ In d (pd.index df).
Proof.
  induction l as [|y l IH]; intros x m d H Hd; simpl in H.
  - injection H as <-. now left.
  - destruct (fold_merge_not_ok _ _ _ H) as [x' Hx'].
    rewrite Hx' in H. destruct (IH _ _ _ H Hd) as [Hin|[df [Hdf Hin]]].
    + destruct (index_merge _ _ _ _ Hx' Hin) as [Hl|Hr]; [now left|].
      right. exists y. simpl. auto.
    + right. exists df. simpl. auto.
Qed.

Lemma index_reduce_merge {v : pd.version} (dfs : list pd.DataFrame) (m : pd.DataFrame)
    (d : Z) :
  BondCollection.reduce (pd.merge v) dfs = Ok m ->
  In d (pd.index m) ->
  exists df, In df dfs /\ In d (pd.index df).
Proof.
  destruct dfs as [|x l]; simpl; [discriminate|].
  intros H Hd. destruct (index_fold_merge _ _ _ _ H Hd) as [Hx|[df [Hdf Hin]]].
  - exists x. auto.
  - exists df. auto.
Qed.

Lemma coupon_frames_in (fuel : nat) (bs : list Bond.t) :
  forall dfs df,
    BondCollection.coupon_frames fuel bs = Ok dfs ->
    In df dfs ->
    exists b, In b bs /\ Bond.coupon_payments fuel b = Ok df.
Proof.
  induction bs as [|b bs IH]; intros dfs df H Hin; simpl in H.
  - injection H as <-. destruct Hin.
  - destruct (Bond.coupon_payments fuel b) as [df0| |] eqn:Hb;
      try discriminate.
    simpl in H.
    destruct (BondCollection.coupon_frames fuel bs) as [dfs0| |];
      try discriminate.
    simpl in H. injection H as <-. destruct Hin as [<-|Hin].
    + exists b. simpl. auto.
    + destruct (IH _ _ eq_refl Hin) as [b' [Hb' Hdf]].
      exists b'. simpl. auto.
Qed.

(** The numeric columns of a frame have its index. *)
Lemma index_get_numeric_data (df : pd.DataFrame) :
  pd.index (pd._get_numeric_data df) = pd.index df.
Proof.
  unfold pd.index, pd._get_numeric_data. cbn [pd.rows].
  rewrite map_map. reflexivity.
Qed.

(** Every entry of the report is the sum of a month with a row of the
    merged frame. *)
Lemma report_entry (numeric_only : bool) (merged : pd.DataFrame)
    (label : string) (v : decimal.Decimal) :
  In (label, v)
    (filter (fun p => negb (decimal.is_zero (snd p)))
       (map (fun p => (pd.strftime_Y_m (fst p), snd p))
          (pd.sum_axis1 (pd.resample_M_sum numeric_only merged)))) ->
  v <> 0%Qc
  /\ exists d, In d (pd.index merged) /\ label = pd.month_label d.
Proof.
  intros H. apply filter_In in H. destruct H as [H Hv]. simpl in Hv.
  apply negb_true_iff, is_zero_false in Hv. split; [exact Hv|].
  apply in_map_iff in H. destruct H as [[k s] [Heq H]].
  simpl in Heq. injection Heq as <- <-.
  unfold pd.sum_axis1, pd.resample_M_sum in H. cbv zeta in H.
  assert (Hidx : pd.index (if numeric_only then pd._get_numeric_data merged
                           else merged) = pd.index merged)
    by (destruct numeric_only;
        [apply index_get_numeric_data | reflexivity]).
  set (df := if numeric_only then pd._get_numeric_data merged else merged)
    in *.
  cbn [pd.rows] in H. rewrite map_map in H. cbn [fst snd] in H.
  apply in_map_iff in H. destruct H as [k' [Heq _]].
  injection Heq as <- Hs.
  destruct (pd.in_month k' (pd.rows df)) as [|r rs] eqn:Hm.
  - exfalso. apply Hv. rewrite <- Hs. apply empty_month_sums_to_zero.
  - assert (Hr : In r (pd.in_month k' (pd.rows df)))
      by (rewrite Hm; now left).
    apply filter_In in Hr. destruct Hr as [Hr Hk].
    apply Z.eqb_eq in Hk. exists (fst r). split.
    + rewrite <- Hidx. unfold pd.index. now apply in_map.
    + unfold pd.month_label. now rewrite Hk.
Qed.

(** C9. In a report that [print_all_coupons] returns, with either version
    of pandas, no month has the amount zero, and every month in it is the
    month of a coupon date of one of the bonds: the months between the
    first and the last coupon date in which no bond pays sum to zero and
    are dropped with the other months of sum zero. *)
Theorem report_has_no_zero_month (v : pd.version) (fuel : nat)
    (self : BondCollection.t) (report : pd.Series string)
    (Hrun : BondCollection.print_all_coupons v fuel self = Ok report)
    (label : string) (amount : decimal.Decimal)
    (Hin : In (label, amount) report) :
  amount <> decimal.of_int 0
  /\ exists b df d,
       In b (BondCollection.bonds self)
       /\ Bond.coupon_payments fuel b = Ok df
       /\ In d (pd.index df)
       /\ label = pd.month_label d.
Proof.
  unfold BondCollection.print_all_coupons in Hrun.
  destruct (BondCollection.coupon_frames fuel (BondCollection.bonds self))
    as [dfs| |] eqn:Hdfs; try discriminate.
  cbn [bind] in Hrun.
  destruct (BondCollection.reduce (pd.merge v) dfs) as [merged| |] eqn:Hm;
    try discriminate.
  cbn [bind] in Hrun. injection Hrun as <-.
  apply report_entry in Hin. destruct Hin as [Hv [d [Hd Hl]]].
  split; [exact Hv|].
  rewrite index_setitem_sums in Hd.
  destruct (index_reduce_merge _ _ _ Hm Hd) as [df [Hdf Hd']].
  destruct (coupon_frames_in _ _ _ _ Hdfs Hdf) as [b [Hb Hpay]].
  exists b, df, d. auto.
Qed.

(** The report of the two bonds that pay once, 10 in January and 7 in
    February 2020: before pandas 2.0, and from 2.0 on. *)
Lemma january_february_report :
  BondCollection.print_all_coupons pd.pandas1 1
    (BondCollection.mk [january; february])
  = Ok [("2020/01"%string, decimal.of_int 10);
        ("2020/02"%string, decimal.of_int 7)].
Proof.
  vm_compute.
  apply f_equal.
  apply f_equal2; [apply f_equal; decimal_eq|].
  apply f_equal2; [apply f_equal; decimal_eq | reflexivity].
Qed.

Lemma january_february_doubled :
  BondCollection.print_all_coupons pd.pandas2 1
    (BondCollection.mk [january; february])
  = Ok [("2020/01"%string, decimal.of_int 20);
        ("2020/02"%string, decimal.of_int 14)].
Proof.
  vm_compute.
  apply f_equal.
  apply f_equal2; [apply f_equal; decimal_eq|].
  apply f_equal2; [apply f_equal; decimal_eq | reflexivity].
Qed.

Lemma report_has_no_zero_month_witness :
  BondCollection.print_all_coupons pd.pandas1 1
    (BondCollection.mk [january; february])
  = Ok [("2020/01"%string, decimal.of_int 10);
        ("2020/02"%string, decimal.of_int 7)]
  /\ In ("2020/02"%string, decimal.of_int 7)
       [("2020/01"%string, decimal.of_int 10);
        ("2020/02"%string, decimal.of_int 7)]
  /\ decimal.of_int 7 <> decimal.of_int 0
  /\ exists b df d,
       In b (BondCollection.bonds (BondCollection.mk [january; february]))
       /\ Bond.coupon_payments 1 b = Ok df
       /\ In d (pd.index df)
       /\ "2020/02"%string = pd.month_label d.
Proof.
  assert (Hin : In ("2020/02"%string, decimal.of_int 7)
                  [("2020/01"%string, decimal.of_int 10);
                   ("2020/02"%string, decimal.of_int 7)])
    by (right; left; reflexivity).
  split; [exact january_february_report|]. split; [exact Hin|].
  exact (report_has_no_zero_month pd.pandas1 1 _ _ january_february_report
           _ _ Hin).
Defined.

(** The months of the demonstration: of the 38 months from November 2019
    to December 2022 the report has the 14 in which a bond pays. *)
Example bonds_collection_months (v : pd.version) :
  fmap (map fst)
    (c <- bonds_collection ;; BondCollection.print_all_coupons v 7 c)
  = Ok ["2019/11"; "2019/12"; "2020/05"; "2020/06"; "2020/11"; "2020/12";
        "2021/05"; "2021/06"; "2021/11"; "2021/12"; "2022/05"; "2022/06";
        "2022/11"; "2022/12"]%string.
Proof. destruct v; vm_compute; reflexivity. Qed.

(** ** Months *)

(** The month that [_ord2ymd] returns is one of the twelve. *)
Lemma year_month_month (d : datetime.date) :
  1 <= snd (datetime.year_month d) <= 12.
Proof.
  unfold datetime.year_month, datetime._ord2ymd.
  cbv zeta.
  set (n400 := (d - 1) mod datetime._DI400Y).
  set (n100 := n400 mod datetime._DI100Y).
  set (n4 := n100 mod datetime._DI4Y).
  set (n := n4 mod 365).
  assert (Hn : 0 <= n < 365) by (apply Z.mod_pos_bound; lia).
  destruct ((n4 / 365 =? 4) || (n400 / datetime._DI100Y =? 4));
    [simpl; lia|].
  set (leap := (n4 / 365 =? 3)
               && (negb (n100 / datetime._DI4Y =? 24)
                   || (n400 / datetime._DI100Y =? 3))).
  rewrite Z.shiftr_div_pow2 by lia. change (2 ^ 5) with 32.
  set (month := (n + 50) / 32).
  assert (Hm : 1 <= month <= 12).
  { subst month. split.
    - apply Z.div_le_lower_bound; lia.
    - apply Z.lt_succ_r, Z.div_lt_upper_bound; lia. }
  assert (Hcases : month = 1 \/ 2 <= month) by lia.
  destruct Hcases as [H1|H2].
  - rewrite H1. simpl. destruct (Z.ltb_spec n 0); [lia | simpl; lia].
  - destruct (n <? _); simpl; lia.
Qed.

(** The number of a month gives back its year and its month. *)
Lemma month_number_year_month (d : datetime.date) :
  (pd.month_number d / 12, pd.month_number d mod 12 + 1)
  = datetime.year_month d.
Proof.
  assert (Hm := year_month_month d). unfold pd.month_number. cbv zeta.
  destruct (datetime.year_month d) as [y m]. cbn [fst snd] in *.
  replace (12 * y + (m - 1)) with (m - 1 + y * 12) by lia.
  rewrite Z.div_add, Z.mod_add by lia.
  rewrite Z.div_small, Z.mod_small by lia.
  f_equal; lia.
Qed.

Example month_label_2020_02 :
  pd.month_label (datetime.mkdate 2020 2 29) = "2020/02"%string
  /\ datetime.year_month (datetime.mkdate 2020 2 29) = (2020, 2).
Proof. split; vm_compute; reflexivity. Qed.

(** ** Sums of cells *)

Section Sums.

Open Scope Qc_scope.

Lemma total_app (a b : list decimal.Decimal) :
  total (a ++ b) = total a + total b.
Proof.
  induction a as [|x a IH]; simpl; [|rewrite IH]; decimal_ring.
Qed.

Lemma total_map_plus {A : Type} (f g : A -> decimal.Decimal) (l : list A) :
  total (map (fun a => f a + g a) l) = total (map f l) + total (map g l).
Proof.
  induction l as [|a l IH]; simpl; [|rewrite IH]; decimal_ring.
Qed.

Lemma total_map_zero {A : Type} (l : list A) :
  total (map (fun _ => 0) l) = 0.
Proof.
  induction l as [|a l IH]; simpl; [|rewrite IH]; decimal_ring.
Qed.

Lemma nansum_total (cells : list pd.cell) :
  pd.nansum cells = total (map cellval cells).
Proof.
  induction cells as [|c cells IH]; [reflexivity|].
  rewrite nansum_cons, IH. reflexivity.
Qed.

Lemma nansum_app (a b : list pd.cell) :
  pd.nansum (a ++ b) = pd.nansum a + pd.nansum b.
Proof. now rewrite !nansum_total, map_app, total_app. Qed.

Lemma nansum_nans (w : nat) : pd.nansum (pd.nans w) = 0.
Proof.
  rewrite nansum_total. unfold pd.nans.
  induction w as [|w IH]; simpl; [|rewrite IH]; decimal_ring.
Qed.

Lemma rowsum_app (a b : list pd.row) :
  rowsum (a ++ b) = rowsum a + rowsum b.
Proof. unfold rowsum. now rewrite map_app, total_app. Qed.

Lemma rowsum_cons (r : pd.row) (rs : list pd.row) :
  rowsum (r :: rs) = pd.nansum (snd r) + rowsum rs.
Proof. reflexivity. Qed.

(** The cells of a row, one index after the other. *)
Lemma map_nth_seq (cells : list pd.cell) :
  map (fun j => nth j cells None) (seq 0 (List.length cells)) = cells.
Proof.
  induction cells as [|c cells IH]; [reflexivity|].
  simpl. f_equal. rewrite <- seq_shift, map_map. exact IH.
Qed.

(** The sums of the columns add up to the sums of the rows. *)
Lemma columns_rows (w : nat) (rs : list pd.row) :
  Forall (fun r => List.length (snd r) = w) rs ->
  pd.nansum (map (fun j => Some (pd.nansum (pd.column j rs))) (seq 0 w))
  = rowsum rs.
Proof.
  intros Hw. rewrite nansum_total, map_map. cbn [cellval].
  induction Hw as [|r rs Hr Hrs IH].
  - unfold pd.column. cbn [map]. change (pd.nansum []) with 0.
    apply total_map_zero.
  - rewrite rowsum_cons, <- IH.
    rewrite (map_ext _
               (fun j => cellval (nth j (snd r) None)
                         + pd.nansum (pd.column j rs))).
    + rewrite total_map_plus. f_equal.
      rewrite nansum_total, <- Hr, <- (map_map _ cellval), map_nth_seq.
      reflexivity.
    + intros j. unfold pd.column. cbn [map]. rewrite nansum_cons.
      reflexivity.
Qed.

End Sums.

(** ** The outer join *)

Section Merge.

Open Scope Z_scope.

(** The keys of a merge are in increasing order, each once, and none is
    lost. *)
Lemma insert_key_sorted (k : Z) (l : list Z) :
  StronglySorted Z.lt l -> StronglySorted Z.lt (pd.insert_key k l).
Proof.
  induction l as [|x l IH]; intros Hs; simpl.
  - repeat constructor.
  - apply StronglySorted_inv in Hs. destruct Hs as [Hs Hx].
    destruct (Z.ltb_spec k x) as [Hlt|Hge].
    + constructor; [constructor; assumption|].
      constructor; [assumption|].
      eapply Forall_impl; [|exact Hx]. simpl. intros; lia.
    + destruct (Z.eqb_spec k x) as [Heq|Hne].
      * constructor; assumption.
      * constructor; [now apply IH|].
        apply Forall_forall. intros y Hy.
        apply insert_key_in in Hy. destruct Hy as [->|Hy]; [lia|].
        rewrite Forall_forall in Hx. now apply Hx.
Qed.

Lemma sorted_keys_sorted (l : list Z) :
  StronglySorted Z.lt (pd.sorted_keys l).
Proof.
  induction l as [|k l IH]; simpl; [constructor|].
  now apply insert_key_sorted.
Qed.

Lemma sorted_NoDup (l : list Z) : StronglySorted Z.lt l -> NoDup l.
Proof.
  induction 1 as [|x l Hs IH Hx]; constructor; [|assumption].
  intros Hin. rewrite Forall_forall in Hx. specialize (Hx x Hin). lia.
Qed.

Lemma sorted_keys_NoDup (l : list Z) : NoDup (pd.sorted_keys l).
Proof. apply sorted_NoDup, sorted_keys_sorted. Qed.

Lemma in_insert_key (k x : Z) (l : list Z) :
  x = k \/ In x l -> In x (pd.insert_key k l).
Proof.
  induction l as [|y l IH]; simpl.
  - intros [H|[]]. now left.
  - destruct (Z.ltb_spec k y) as [Hlt|Hge].
    + simpl. intros [H|[H|H]]; auto.
    + destruct (Z.eqb_spec k y) as [->|Hne]; simpl.
      * intros [H|[H|H]]; auto.
      * intros [H|[H|H]]; auto.
Qed.

Lemma in_sorted_keys (x : Z) (l : list Z) :
  In x l -> In x (pd.sorted_keys l).
Proof.
  induction l as [|k l IH]; simpl; [tauto|].
  intros [H|H]; apply in_insert_key; auto.
Qed.

(** A frame whose index has no date twice has at most one row under a
    key. *)
Lemma select_nil (k : Z) (rs : list pd.row) :
  ~ In k (map fst rs) -> pd.select k rs = [].
Proof.
  induction rs as [|r rs IH]; simpl; [reflexivity|].
  intros H. case_eqb; [tauto|]. apply IH. tauto.
Qed.

Lemma select_unique (k : Z) (rs : list pd.row) :
  NoDup (map fst rs) ->
  pd.select k rs = [] \/ exists r, pd.select k rs = [r].
Proof.
  induction rs as [|r rs IH]; simpl; intros Hnd; [now left|].
  apply NoDup_cons_iff in Hnd. destruct Hnd as [Hr Hnd].
  case_eqb.
  - right. exists r. f_equal. apply select_nil. now subst k.
  - now apply IH.
Qed.

Lemma select_in (k : Z) (rs : list pd.row) :
  In k (map fst rs) -> pd.select k rs <> [].
Proof.
  intros H. apply in_map_iff in H. destruct H as [r [Hk Hr]].
  assert (Hs : In r (pd.select k rs)).
  { apply filter_In. split; [assumption|]. now apply Z.eqb_eq. }
  intros Hnil. rewrite Hnil in Hs. destruct Hs.
Qed.

End Merge.

Section MergeSums.

Open Scope Qc_scope.

Variables (wl wr : nat) (L R : list pd.row).

Hypothesis HL : NoDup (map fst L).
Hypothesis HR : NoDup (map fst R).

Lemma rowsum_pad_left (k : Z) (rs : list pd.row) :
  rowsum (map (fun r => (k, pd.nans wl ++ snd r)) rs) = rowsum rs.
Proof.
  induction rs as [|r rs IH]; [reflexivity|].
  cbn [map]. rewrite !rowsum_cons, IH. cbn [snd].
  rewrite nansum_app, nansum_nans. decimal_ring.
Qed.

Lemma rowsum_pad_right (k : Z) (rs : list pd.row) :
  rowsum (map (fun l => (k, snd l ++ pd.nans wr)) rs) = rowsum rs.
Proof.
  induction rs as [|r rs IH]; [reflexivity|].
  cbn [map]. rewrite !rowsum_cons, IH. cbn [snd].
  rewrite nansum_app, nansum_nans. decimal_ring.
Qed.

(** Under one key the join keeps the sum of the cells of both sides. *)
Lemma join_key_rowsum (key : Z) :
  rowsum (pd.join_key wl wr L R key)
  = rowsum (pd.select key L) + rowsum (pd.select key R).
Proof.
  unfold pd.join_key.
  destruct (select_unique key L HL) as [Hl|[l Hl]]; rewrite Hl.
  - rewrite rowsum_pad_left. change (rowsum []) with 0. decimal_ring.
  - destruct (select_unique key R HR) as [Hr|[r Hr]]; rewrite Hr.
    + rewrite rowsum_pad_right. change (rowsum []) with 0. decimal_ring.
    + cbn [flat_map map app]. rewrite !rowsum_cons. cbn [snd].
      rewrite nansum_app. change (rowsum []) with 0. decimal_ring.
Qed.

(** A key of one of the sides has one row in the join. *)
Lemma join_key_single (key : Z) :
  In key (map fst L ++ map fst R) ->
  exists cells, pd.join_key wl wr L R key = [(key, cells)].
Proof.
  intros Hin. unfold pd.join_key.
  destruct (select_unique key L HL) as [Hl|[l Hl]]; rewrite Hl.
  - destruct (select_unique key R HR) as [Hr|[r Hr]]; rewrite Hr.
    + exfalso. apply in_app_or in Hin. destruct Hin as [Hin|Hin].
      * now apply (select_in key L).
      * now apply (select_in key R).
    + eexists. reflexivity.
  - destruct (select_unique key R HR) as [Hr|[r Hr]]; rewrite Hr;
      eexists; reflexivity.
Qed.

Lemma join_index (keys : list Z) :
  (forall key, In key keys -> In key (map fst L ++ map fst R)) ->
  map fst (flat_map (pd.join_key wl wr L R) keys) = keys.
Proof.
  induction keys as [|key keys IH]; intros Hin; [reflexivity|].
  change (flat_map (pd.join_key wl wr L R) (key :: keys))
    with (pd.join_key wl wr L R key
          ++ flat_map (pd.join_key wl wr L R) keys).
  destruct (join_key_single key (Hin key (or_introl eq_refl)))
    as [cells ->].
  cbn [map fst app]. f_equal. apply IH. intros; apply Hin; now right.
Qed.

End MergeSums.

Section MonthSums.

Open Scope Qc_scope.

Variable k : Z.

Lemma in_month_flat_map (f : Z -> list pd.row) (keys : list Z) :
  pd.in_month k (flat_map f keys)
  = flat_map (fun key => pd.in_month k (f key)) keys.
Proof.
  unfold pd.in_month.
  induction keys as [|key keys IH]; [reflexivity|].
  simpl. rewrite filter_app. f_equal. exact IH.
Qed.

Lemma in_month_same_key (key : Z) (rs : list pd.row) :
  (forall r, In r rs -> fst r = key) ->
  pd.in_month k rs = if pd.month_number key =? k then rs else [].
Proof.
  unfold pd.in_month. induction rs as [|r rs IH]; intros Hkey.
  - now destruct (_ =? _)%Z.
  - cbn [filter]. rewrite (Hkey r (or_introl eq_refl)).
    rewrite IH by (intros; apply Hkey; now right).
    now destruct (_ =? _)%Z.
Qed.

(** The sum of a month over the rows of a join, key by key. *)
Lemma rowsum_in_month_join (wl wr : nat) (L R : list pd.row)
    (keys : list Z) :
  rowsum (pd.in_month k (flat_map (pd.join_key wl wr L R) keys))
  = total
      (map (fun key =>
              if (pd.month_number key =? k)%Z
              then rowsum (pd.join_key wl wr L R key) else 0)
         keys).
Proof.
  rewrite in_month_flat_map.
  induction keys as [|key keys IH]; [reflexivity|].
  change (flat_map (fun key => pd.in_month k (pd.join_key wl wr L R key))
            (key :: keys))
    with (pd.in_month k (pd.join_key wl wr L R key)
          ++ flat_map
               (fun key => pd.in_month k (pd.join_key wl wr L R key)) keys).
  cbn [map total fold_right]. rewrite rowsum_app.
  fold (total
          (map (fun key =>
                  if (pd.month_number key =? k)%Z
                  then rowsum (pd.join_key wl wr L R key) else 0)
             keys)).
  rewrite <- IH. f_equal.
  rewrite (in_month_same_key key) by (intros r; apply join_key_fst).
  now destruct (_ =? _)%Z.
Qed.

(** An amount counted under the one key that equals [a]. *)
Lemma total_other_keys (a : Z) (x : decimal.Decimal) (keys : list Z) :
  ~ In a keys ->
  total
    (map (fun key =>
            if (pd.month_number key =? k)%Z
            then (if (a =? key)%Z then x else 0) else 0)
       keys) = 0.
Proof.
  induction keys as [|key keys IH]; intros Hin; [reflexivity|].
  cbn [map total fold_right].
  fold (total
          (map (fun key =>
                  if (pd.month_number key =? k)%Z
                  then (if (a =? key)%Z then x else 0) else 0)
             keys)).
  rewrite IH by (intros H; apply Hin; now right).
  destruct (Z.eqb_spec a key) as [->|Hne].
  - exfalso. apply Hin. now left.
  - destruct (_ =? _)%Z; decimal_ring.
Qed.

Lemma total_one_key (a : Z) (x : decimal.Decimal) (keys : list Z) :
  NoDup keys -> In a keys ->
  total
    (map (fun key =>
            if (pd.month_number key =? k)%Z
            then (if (a =? key)%Z then x else 0) else 0)
       keys)
  = if (pd.month_number a =? k)%Z then x else 0.
Proof.
  induction keys as [|key keys IH]; intros Hnd Hin; [destruct Hin|].
  apply NoDup_cons_iff in Hnd. destruct Hnd as [Hkey Hnd].
  cbn [map total fold_right].
  fold (total
          (map (fun key =>
                  if (pd.month_number key =? k)%Z
                  then (if (a =? key)%Z then x else 0) else 0)
             keys)).
  destruct (Z.eqb_spec a key) as [->|Hne].
  - rewrite total_other_keys by assumption.
    destruct (_ =? _)%Z; decimal_ring.
  - destruct Hin as [Heq|Hin]; [congruence|].
    rewrite IH by assumption.
    destruct (pd.month_number key =? k)%Z; decimal_ring.
Qed.

(** The sums of a month under the keys are the sum of the rows of the
    month, when every key of the rows is among the keys, once. *)
Lemma total_select (keys : list Z) (rs : list pd.row) :
  NoDup keys ->
  (forall r, In r rs -> In (fst r) keys) ->
  total
    (map (fun key =>
            if (pd.month_number key =? k)%Z
            then rowsum (pd.select key rs) else 0)
       keys)
  = rowsum (pd.in_month k rs).
Proof.
  intros Hnd. induction rs as [|r rs IH]; intros Hin.
  - cbn [pd.select filter pd.in_month]. change (rowsum []) with 0.
    rewrite (map_ext _ (fun _ => 0)) by (intros; now destruct (_ =? _)%Z).
    apply total_map_zero.
  - rewrite (map_ext _
               (fun key =>
                  (if (pd.month_number key =? k)%Z
                   then (if (fst r =? key)%Z then pd.nansum (snd r) else 0)
                   else 0)
                  + (if (pd.month_number key =? k)%Z
                     then rowsum (pd.select key rs) else 0))).
    + rewrite total_map_plus.
      transitivity
        ((if (pd.month_number (fst r) =? k)%Z then pd.nansum (snd r) else 0)
         + rowsum (pd.in_month k rs)).
      * f_equal.
        -- apply total_one_key; [assumption | apply Hin; now left].
        -- apply IH. intros; apply Hin; now right.
      * unfold pd.in_month. cbn [filter].
        destruct (_ =? _)%Z; [rewrite rowsum_cons|]; decimal_ring.
    + intros key. unfold pd.select. cbn [filter].
      destruct (pd.month_number key =? k)%Z; [|decimal_ring].
      repeat case_eqb; try contradiction; try rewrite rowsum_cons;
        decimal_ring.
Qed.

End MonthSums.

(** The outer join of two frames without a date twice keeps what the
    frames pay in every month, and has no date twice. *)
Lemma merge_paid_in_month {v : pd.version} (left right merged : pd.DataFrame) (k : Z) :
  NoDup (pd.index left) -> NoDup (pd.index right) ->
  pd.merge v left right = Ok merged ->
  paid_in_month k merged
  = (paid_in_month k left + paid_in_month k right)%Qc
  /\ NoDup (pd.index merged).
Proof.
  intros Hl Hr. unfold pd.merge. destruct (pd.merge_fails _ _ _); [discriminate|].
  intros H. injection H as <-. unfold paid_in_month, pd.index.
  cbn [pd.rows].
  set (keys := pd.sorted_keys _).
  assert (Hkeys : NoDup keys) by apply sorted_keys_NoDup.
  split.
  - rewrite rowsum_in_month_join.
    rewrite (map_ext _
               (fun key =>
                  ((if pd.month_number key =? k
                    then rowsum (pd.select key (pd.rows left)) else 0)
                   + (if pd.month_number key =? k
                      then rowsum (pd.select key (pd.rows right)) else 0))%Qc)).
    + rewrite total_map_plus. f_equal; apply total_select; try assumption.
      * intros r Hin. apply in_sorted_keys, in_or_app. left.
        now apply in_map.
      * intros r Hin. apply in_sorted_keys, in_or_app. right.
        now apply in_map.
    + intros key. rewrite join_key_rowsum by assumption.
      destruct (_ =? _); decimal_ring.
  - rewrite join_index; try assumption.
    intros key Hin. now apply sorted_keys_in.
Qed.

(** ** Frames that stay sound *)

Lemma join_key_width (wl wr : nat) (L R : list pd.row) (key : Z)
    (r : pd.row) :
  Forall (fun r => List.length (snd r) = wl) L ->
  Forall (fun r => List.length (snd r) = wr) R ->
  In r (pd.join_key wl wr L R key) ->
  List.length (snd r) = (wl + wr)%nat.
Proof.
  intros HL HR. rewrite Forall_forall in HL, HR.
  assert (Hsl : forall l, In l (pd.select key L) -> List.length (snd l) = wl)
    by (intros l Hl; apply HL; apply filter_In in Hl; tauto).
  assert (Hsr : forall l, In l (pd.select key R) -> List.length (snd l) = wr)
    by (intros l Hl; apply HR; apply filter_In in Hl; tauto).
  unfold pd.join_key.
  destruct (pd.select key L) as [|l ls];
    [|destruct (pd.select key R) as [|r' rs]].
  - intros H. apply in_map_iff in H. destruct H as [x [<- Hx]].
    cbn [snd]. rewrite length_app. unfold pd.nans. rewrite repeat_length.
    now rewrite (Hsr x Hx).
  - intros H. apply in_map_iff in H. destruct H as [x [<- Hx]].
    cbn [snd]. rewrite length_app. unfold pd.nans. rewrite repeat_length.
    now rewrite (Hsl x Hx).
  - intros H. apply in_flat_map in H. destruct H as [x [Hx H]].
    apply in_map_iff in H. destruct H as [y [<- Hy]].
    cbn [snd]. rewrite length_app. now rewrite (Hsl x Hx), (Hsr y Hy).
Qed.

(** No label with a suffix is [total]. *)
Lemma suffixed_not_total (c sfx : string) :
  sfx = "_x"%string \/ sfx = "_y"%string ->
  (c ++ sfx)%string <> "total"%string.
Proof.
  intros Hs H.
  destruct c as [|a1 [|a2 [|a3 [|a4 [|a5 [|a6 c]]]]]];
    destruct Hs as [-> | ->]; simpl in H; discriminate.
Qed.

Lemma rename_not_total (other : list string) (sfx c : string) :
  sfx = "_x"%string \/ sfx = "_y"%string ->
  c <> "total"%string ->
  pd.rename other sfx c <> "total"%string.
Proof.
  intros Hs Hc. unfold pd.rename. destruct (pd.mem c other); [|exact Hc].
  now apply suffixed_not_total.
Qed.

Lemma mem_false (c : string) (l : list string) :
  ~ In c l -> pd.mem c l = false.
Proof.
  intros H. unfold pd.mem. apply not_true_is_false. intros Hex.
  apply existsb_exists in Hex. destruct Hex as [x [Hx Heq]].
  apply String.eqb_eq in Heq. now subst x.
Qed.

Lemma mem_true (c : string) (l : list string) :
  pd.mem c l = true -> In c l.
Proof.
  unfold pd.mem. intros Hex.
  apply existsb_exists in Hex. destruct Hex as [x [Hx Heq]].
  apply String.eqb_eq in Heq. now subst x.
Qed.

Lemma in_mem (c : string) (l : list string) :
  In c l -> pd.mem c l = true.
Proof.
  intros H. unfold pd.mem. apply existsb_exists. exists c.
  split; [exact H | apply String.eqb_refl].
Qed.

(** A label [total] that both sides have is renamed on both; one that a
    single side has stays. *)
Lemma count_rename (other : list string) (sfx : string) (l : list string) :
  sfx = "_x"%string \/ sfx = "_y"%string ->
  count_occ string_dec (map (pd.rename other sfx) l) "total"%string
  = if pd.mem "total" other then 0%nat
    else count_occ string_dec l "total"%string.
Proof.
  intros Hs. destruct (pd.mem "total" other) eqn:Hm.
  - induction l as [|c l IH]; cbn [map count_occ]; [reflexivity|].
    destruct (string_dec (pd.rename other sfx c) "total") as [E|_];
      [exfalso | exact IH].
    destruct (string_dec c "total") as [->|Hne].
    + unfold pd.rename in E. rewrite Hm in E.
      exact (suffixed_not_total "total" sfx Hs E).
    + exact (rename_not_total other sfx c Hs Hne E).
  - induction l as [|c l IH]; cbn [map count_occ]; [reflexivity|].
    destruct (string_dec c "total") as [->|Hne].
    + destruct (string_dec (pd.rename other sfx "total") "total")
        as [_|E].
      * now rewrite IH.
      * exfalso. apply E. unfold pd.rename. now rewrite Hm.
    + destruct (string_dec (pd.rename other sfx c) "total") as [E|_];
        [exfalso; exact (rename_not_total other sfx c Hs Hne E)|].
      exact IH.
Qed.

Lemma merge_sound {v : pd.version} (left right merged : pd.DataFrame) :
  sound left -> sound right ->
  pd.merge v left right = Ok merged ->
  sound merged.
Proof.
  intros [Hl [Hwl [Hdl Hcl]]] [Hr [Hwr [Hdr Hcr]]] Hm.
  split; [|split; [|split]].
  - exact (proj2 (merge_paid_in_month _ _ _ 0 Hl Hr Hm)).
  - unfold pd.merge in Hm. destruct (pd.merge_fails _ _ _); [discriminate|].
    injection Hm as <-. unfold widths. cbn [pd.rows pd.columns].
    apply Forall_forall. intros r Hin.
    apply in_flat_map in Hin. destruct Hin as [key [_ Hin]].
    rewrite length_app, !length_map.
    now apply (join_key_width _ _ _ _ _ _ Hwl Hwr Hin).
  - unfold pd.merge in Hm. destruct (pd.merge_fails _ _ _); [discriminate|].
    injection Hm as <-. cbn [pd.dtypes pd.columns].
    rewrite Hdl, Hdr, length_app, !length_map. symmetry. apply repeat_app.
  - unfold pd.merge in Hm. destruct (pd.merge_fails _ _ _); [discriminate|].
    injection Hm as <-. cbn [pd.columns].
    rewrite count_occ_app, !count_rename by auto.
    destruct (pd.mem "total" (pd.columns right)) eqn:Hmr;
      destruct (pd.mem "total" (pd.columns left)) eqn:Hml; try lia.
    assert (H0 : count_occ string_dec (pd.columns left) "total"%string
                 = 0%nat).
    { apply count_occ_not_In. intros Hin. apply in_mem in Hin. congruence. }
    lia.
Qed.

Lemma merge_plain {v : pd.version} (left right merged : pd.DataFrame) :
  plain left -> plain right ->
  pd.merge v left right = Ok merged ->
  plain merged.
Proof.
  unfold plain. intros Htl Htr Hm.
  unfold pd.merge in Hm. destruct (pd.merge_fails _ _ _); [discriminate|].
  injection Hm as <-. cbn [pd.columns]. intros Hin.
  apply in_app_or in Hin.
  destruct Hin as [Hin|Hin]; apply in_map_iff in Hin;
    destruct Hin as [c [Hc Hin]]; revert Hc; apply rename_not_total;
    auto; intros ->; contradiction.
Qed.

(** What [reduce] returns on sound frames is sound, and pays in a month
    what the frames pay together. *)
Lemma fold_merge_sound {v : pd.version} (k : Z) (l : list pd.DataFrame) :
  forall x m,
    sound x -> Forall sound l ->
    fold_left (fun acc y => a <- acc ;; pd.merge v a y) l (Ok x) = Ok m ->
    sound m
    /\ paid_in_month k m
       = (paid_in_month k x + total (map (paid_in_month k) l))%Qc.
Proof.
  induction l as [|y l IH]; intros x m Hx Hl H; simpl in H.
  - injection H as <-. split; [exact Hx|]. simpl. decimal_ring.
  - apply Forall_cons_iff in Hl. destruct Hl as [Hy Hl].
    destruct (fold_merge_not_ok _ _ _ H) as [x' Hx'].
    rewrite Hx' in H.
    assert (Hs := merge_sound _ _ _ Hx Hy Hx').
    destruct (IH _ _ Hs Hl H) as [Hm Hpaid]. split; [exact Hm|].
    rewrite Hpaid.
    rewrite (proj1 (merge_paid_in_month _ _ _ k (proj1 Hx) (proj1 Hy) Hx')).
    simpl. decimal_ring.
Qed.

Lemma reduce_merge_sound {v : pd.version} (k : Z) (dfs : list pd.DataFrame)
    (m : pd.DataFrame) :
  Forall sound dfs ->
  BondCollection.reduce (pd.merge v) dfs = Ok m ->
  sound m /\ paid_in_month k m = total (map (paid_in_month k) dfs).
Proof.
  destruct dfs as [|x l]; simpl; [discriminate|].
  intros Hs H. apply Forall_cons_iff in Hs. destruct Hs as [Hx Hl].
  apply (fold_merge_sound k l x m Hx Hl H).
Qed.

Lemma fold_merge_plain {v : pd.version} (l : list pd.DataFrame) :
  forall x m,
    plain x -> Forall plain l ->
    fold_left (fun acc y => a <- acc ;; pd.merge v a y) l (Ok x) = Ok m ->
    plain m.
Proof.
  induction l as [|y l IH]; intros x m Hx Hl H; simpl in H.
  - now injection H as <-.
  - apply Forall_cons_iff in Hl. destruct Hl as [Hy Hl].
    destruct (fold_merge_not_ok _ _ _ H) as [x' Hx'].
    rewrite Hx' in H.
    exact (IH _ _ (merge_plain _ _ _ Hx Hy Hx') Hl H).
Qed.

Lemma reduce_merge_plain {v : pd.version} (dfs : list pd.DataFrame) (m : pd.DataFrame) :
  Forall plain dfs ->
  BondCollection.reduce (pd.merge v) dfs = Ok m ->
  plain m.
Proof.
  destruct dfs as [|x l]; simpl; [discriminate|].
  intros Hs H. apply Forall_cons_iff in Hs. destruct Hs as [Hx Hl].
  apply (fold_merge_plain l x m Hx Hl H).
Qed.

(** ** The frame of a bond is sound *)

Lemma coupon_payments_sound (fuel : nat) (b : Bond.t) (df : pd.DataFrame) :
  Bond.coupon_payments fuel b = Ok df -> sound df.
Proof.
  intros H. apply coupon_payments_returned in H.
  destruct H as [l [Hl [-> _]]].
  apply coupon_payments_loop_bounded in Hl.
  destruct Hl as [k [-> [Hk Hle]]]. split; [|split; [|split]].
  - unfold pd.index, frame_of. cbn [pd.rows app]. rewrite !map_map.
    cbn [fst].
    destruct k as [|k]; [constructor|].
    assert (Hdays : 0 < Bond.coupon_days b)
      by (specialize (Hle 0%nat ltac:(lia)); nia).
    apply Injective_map_NoDup; [|apply seq_NoDup].
    intros i j Hij. apply Nat2Z.inj. nia.
  - unfold widths, frame_of. cbn [pd.rows pd.columns].
    apply Forall_forall. intros r Hr. apply in_map_iff in Hr.
    destruct Hr as [p [<- _]]. reflexivity.
  - reflexivity.
  - unfold frame_of. cbn [pd.columns count_occ].
    destruct (string_dec (Bond.name b) "total"); lia.
Qed.

Lemma coupon_payments_plain (fuel : nat) (b : Bond.t) (df : pd.DataFrame) :
  Bond.name b <> "total"%string ->
  Bond.coupon_payments fuel b = Ok df ->
  plain df.
Proof.
  intros Hname H. apply coupon_payments_returned in H.
  destruct H as [l [_ [-> _]]].
  unfold plain, frame_of. cbn [pd.columns]. intros [H|[]]. congruence.
Qed.

Lemma coupon_frames_sound (fuel : nat) (bs : list Bond.t)
    (dfs : list pd.DataFrame) :
  BondCollection.coupon_frames fuel bs = Ok dfs ->
  Forall sound dfs.
Proof.
  intros H. apply Forall_forall. intros df Hdf.
  destruct (coupon_frames_in _ _ _ _ H Hdf) as [b [Hb Hpay]].
  exact (coupon_payments_sound fuel b df Hpay).
Qed.

Lemma coupon_frames_plain (fuel : nat) (bs : list Bond.t)
    (dfs : list pd.DataFrame) :
  (forall b, In b bs -> Bond.name b <> "total"%string) ->
  BondCollection.coupon_frames fuel bs = Ok dfs ->
  Forall plain dfs.
Proof.
  intros Hnames H. apply Forall_forall. intros df Hdf.
  destruct (coupon_frames_in _ _ _ _ H Hdf) as [b [Hb Hpay]].
  apply (coupon_payments_plain fuel b); auto.
Qed.

(** ** The column of the totals and the monthly sums *)

Lemma map_combine_map {A B C : Type} (g : A -> B) (h : A * B -> C)
    (l : list A) :
  map h (combine l (map g l)) = map (fun a => h (a, g a)) l.
Proof.
  induction l as [|a l IH]; simpl; [reflexivity | now rewrite IH].
Qed.

(** The rows after the assignment: the sum of every row is written to its
    cells of the label [total], or added as its last cell. *)
Lemma rows_setitem_sums (df : pd.DataFrame) (t : pd.dtype) :
  pd.rows (pd.setitem df "total" t (pd.sum_axis1 df))
  = map (fun r => (fst r,
                   pd.set_cells (pd.columns df) "total"
                     (pd.nansum (snd r)) (snd r)))
      (pd.rows df).
Proof.
  unfold pd.setitem, pd.sum_axis1. cbn [pd.rows].
  exact (map_combine_map
           (fun r : pd.row => (fst r, pd.nansum (snd r)))
           (fun p => (fst (fst p),
                      pd.set_cells (pd.columns df) "total" (snd (snd p))
                        (snd (fst p))))
           (pd.rows df)).
Qed.

Lemma in_month_map (k : Z) (g : pd.row -> list pd.cell)
    (rs : list pd.row) :
  pd.in_month k (map (fun r => (fst r, g r)) rs)
  = map (fun r => (fst r, g r)) (pd.in_month k rs).
Proof.
  unfold pd.in_month. induction rs as [|r rs IH]; [reflexivity|].
  simpl. destruct (_ =? _); simpl; now rewrite IH.
Qed.

Lemma rowsum_with_totals (rs : list pd.row) :
  rowsum (map (fun r => (fst r, snd r ++ [Some (pd.nansum (snd r))])) rs)
  = (decimal.of_int 2 * rowsum rs)%Qc.
Proof.
  induction rs as [|r rs IH].
  - change (rowsum (map _ [])) with 0%Qc. change (rowsum []) with 0%Qc.
    decimal_ring.
  - cbn [map]. rewrite !rowsum_cons, IH. cbn [snd].
    rewrite nansum_app, nansum_cons. change (pd.nansum []) with 0%Qc.
    change (decimal.of_int 2) with (1 + 1)%Qc. decimal_ring.
Qed.

Lemma rowsum_of_totals (rs : list pd.row) :
  rowsum (map (fun r => (fst r, [Some (pd.nansum (snd r))])) rs)
  = rowsum rs.
Proof.
  induction rs as [|r rs IH]; [reflexivity|].
  cbn [map]. rewrite !rowsum_cons, IH. cbn [snd].
  rewrite nansum_cons. change (pd.nansum []) with 0%Qc. decimal_ring.
Qed.

(** From pandas 2.0 on: the sum of a bin of the frame with its column of
    totals, over every column, is twice what the frame pays in the
    month. *)
Lemma bin_sum_is_doubled (df : pd.DataFrame) (t : pd.dtype) (k : Z) :
  widths df -> plain df ->
  let df' := pd.setitem df "total" t (pd.sum_axis1 df) in
  pd.nansum
    (map (fun j => Some (pd.nansum (pd.column j (pd.in_month k (pd.rows df')))))
       (seq 0 (List.length (pd.columns df'))))
  = (decimal.of_int 2 * paid_in_month k df)%Qc.
Proof.
  intros Hw Ht df'. subst df'. rewrite rows_setitem_sums.
  unfold pd.setitem, pd.set_cells. cbn [pd.columns].
  rewrite (mem_false _ _ Ht).
  rewrite (in_month_map k (fun r => snd r ++ [Some (pd.nansum (snd r))])).
  rewrite columns_rows.
  - apply rowsum_with_totals.
  - apply Forall_forall. intros r Hr. apply in_map_iff in Hr.
    destruct Hr as [r0 [<- Hr0]]. cbn [snd].
    apply filter_In in Hr0. destruct Hr0 as [Hr0 _].
    unfold widths in Hw. rewrite Forall_forall in Hw.
    rewrite !length_app, (Hw r0 Hr0). reflexivity.
Qed.

(** *** Before pandas 2.0: the numeric columns *)

Section Keep.

Context {A : Type}.

Lemma keep_last (n : nat) :
  forall (l : list A) (x : A),
    List.length l = n ->
    pd.keep (repeat false n ++ [true]) (l ++ [x]) = [x].
Proof.
  induction n as [|n IH]; intros [|a l] x Hl; try discriminate.
  - reflexivity.
  - simpl in Hl. injection Hl as Hl. exact (IH l x Hl).
Qed.

(** The mask of the labels [total] keeps as many entries as there are
    such labels. *)
Lemma length_keep_total (cs : list string) :
  forall l : list A,
    List.length l = List.length cs ->
    List.length
      (pd.keep (map (fun c => String.eqb c "total") cs) l)
    = count_occ string_dec cs "total"%string.
Proof.
  induction cs as [|c cs IH]; intros [|a l] Hl; try discriminate;
    [reflexivity|].
  simpl in Hl. injection Hl as Hl. specialize (IH l Hl).
  cbn [map count_occ]. unfold pd.keep in *. cbn [combine filter fst].
  destruct (String.eqb_spec c "total") as [->|Hne].
  - destruct (string_dec "total" "total") as [_|E]; [|contradiction].
    cbn [map List.length]. now rewrite IH.
  - destruct (string_dec c "total") as [E|_]; [contradiction|].
    exact IH.
Qed.

End Keep.

(** The cells that the mask of the labels [total] keeps of a row after
    the assignment are the sum of the row, once for every such label. *)
Lemma keep_set_cells (s : decimal.Decimal) (cs : list string) :
  forall cells : list pd.cell,
    List.length cells = List.length cs ->
    pd.keep (map (fun c => String.eqb c "total") cs)
      (map (fun p => if String.eqb (fst p) "total" then Some s else snd p)
         (combine cs cells))
    = repeat (Some s) (count_occ string_dec cs "total"%string).
Proof.
  induction cs as [|c cs IH]; intros [|x cells] Hl; try discriminate;
    [reflexivity|].
  simpl in Hl. injection Hl as Hl. specialize (IH cells Hl).
  cbn [map count_occ combine fst snd]. unfold pd.keep in *.
  cbn [combine filter fst].
  destruct (String.eqb_spec c "total") as [->|Hne].
  - destruct (string_dec "total" "total") as [_|E]; [|contradiction].
    cbn [map snd repeat]. now rewrite IH.
  - destruct (string_dec c "total") as [E|_]; [contradiction|].
    exact IH.
Qed.

(** The dtypes after the assignment of a [float64] series to the label
    [total] of a frame of objects: the numeric columns are those of the
    label. *)
Lemma numeric_after_setitem (cs : list string) :
  map pd.is_numeric
    (map (fun p => if String.eqb (fst p) "total" then pd.float64 else snd p)
       (combine cs (repeat pd.object_ (List.length cs))))
  = map (fun c => String.eqb c "total") cs.
Proof.
  induction cs as [|c cs IH]; [reflexivity|].
  cbn [List.length repeat combine map fst snd]. rewrite IH.
  now destruct (String.eqb c "total").
Qed.

Lemma numeric_objects (n : nat) :
  map pd.is_numeric (repeat pd.object_ n) = repeat false n.
Proof. induction n as [|n IH]; [reflexivity | simpl; now rewrite IH]. Qed.

(** The numeric columns of a sound frame after the assignment of its
    [float64] row sums: one column, of the sums. *)
Lemma numeric_data_of_totals (df : pd.DataFrame) :
  sound df ->
  let nd :=
    pd._get_numeric_data
      (pd.setitem df "total" pd.float64 (pd.sum_axis1 df)) in
  pd.rows nd
  = map (fun r => (fst r, [Some (pd.nansum (snd r))])) (pd.rows df)
  /\ List.length (pd.columns nd) = 1%nat.
Proof.
  intros [_ [Hw [Hd Hc]]] nd. subst nd. unfold pd._get_numeric_data.
  cbn [pd.rows pd.columns]. rewrite rows_setitem_sums, map_map.
  cbn [fst snd]. unfold pd.setitem, pd.set_cells.
  cbn [pd.dtypes pd.columns]. rewrite Hd.
  unfold widths in Hw. rewrite Forall_forall in Hw.
  destruct (pd.mem "total" (pd.columns df)) eqn:Hmem.
  - rewrite numeric_after_setitem.
    assert (H1 : count_occ string_dec (pd.columns df) "total"%string
                 = 1%nat).
    { apply mem_true in Hmem.
      apply (count_occ_In string_dec) in Hmem. lia. }
    split.
    + apply map_ext_in. intros r Hr. f_equal.
      rewrite keep_set_cells by (now apply Hw). now rewrite H1.
    + now rewrite length_keep_total.
  - rewrite map_app, numeric_objects. cbn [map pd.is_numeric]. split.
    + apply map_ext_in. intros r Hr. f_equal.
      apply keep_last. now apply Hw.
    + now rewrite keep_last.
Qed.

(** Before pandas 2.0 the sum of a bin, over the numeric columns, is what
    the frame pays in the month. *)
Lemma bin_sum_is_paid (df : pd.DataFrame) (k : Z) :
  sound df ->
  let nd :=
    pd._get_numeric_data
      (pd.setitem df "total" pd.float64 (pd.sum_axis1 df)) in
  pd.nansum
    (map (fun j => Some (pd.nansum (pd.column j (pd.in_month k (pd.rows nd)))))
       (seq 0 (List.length (pd.columns nd))))
  = paid_in_month k df.
Proof.
  intros Hs nd. destruct (numeric_data_of_totals df Hs) as [Hrows Hcols].
  fold nd in Hrows, Hcols. rewrite Hrows, Hcols.
  rewrite (in_month_map k (fun r => [Some (pd.nansum (snd r))])).
  rewrite columns_rows.
  - apply rowsum_of_totals.
  - apply Forall_forall. intros r Hr. apply in_map_iff in Hr.
    destruct Hr as [r0 [<- _]]. reflexivity.
Qed.

(** What the table of a bond pays in a month is the sum of the coupons
    whose date is in the month. *)
Lemma paid_in_month_frame_of (b : Bond.t) (k : Z)
    (l : list (datetime.date * decimal.Decimal)) :
  paid_in_month k (frame_of b l)
  = total (map snd (filter (fun p => pd.month_number (fst p) =? k) l)).
Proof.
  unfold paid_in_month, frame_of, pd.in_month. cbn [pd.rows].
  induction l as [|p l IH]; [reflexivity|].
  cbn [map filter fst]. destruct (_ =? _).
  - rewrite rowsum_cons, IH. cbn [map total fold_right snd].
    rewrite nansum_cons. change (pd.nansum []) with 0%Qc. unfold total.
    decimal_ring.
  - exact IH.
Qed.

(** ** The report as a whole *)

Lemma fold_min_spec (l : list Z) :
  forall d,
    In (fold_left Z.min l d) (d :: l)
    /\ forall x, In x (d :: l) -> fold_left Z.min l d <= x.
Proof.
  induction l as [|y l IH]; intros d.
  - simpl. split; [auto|]. intros x [<-|[]]. lia.
  - cbn [fold_left]. destruct (IH (Z.min d y)) as [Hin Hle]. split.
    + destruct Hin as [Hin|Hin]; [|right; right; exact Hin].
      rewrite <- Hin.
      destruct (Z.min_spec d y) as [[_ ->]|[_ ->]]; simpl; auto.
    + intros x Hx.
      assert (Hm := Hle (Z.min d y) (or_introl eq_refl)).
      destruct Hx as [<-|[<-|Hx]]; [lia | lia |].
      apply Hle. now right.
Qed.

Lemma fold_max_spec (l : list Z) :
  forall d,
    In (fold_left Z.max l d) (d :: l)
    /\ forall x, In x (d :: l) -> x <= fold_left Z.max l d.
Proof.
  induction l as [|y l IH]; intros d.
  - simpl. split; [auto|]. intros x [<-|[]]. lia.
  - cbn [fold_left]. destruct (IH (Z.max d y)) as [Hin Hle]. split.
    + destruct Hin as [Hin|Hin]; [|right; right; exact Hin].
      rewrite <- Hin.
      destruct (Z.max_spec d y) as [[_ ->]|[_ ->]]; simpl; auto.
    + intros x Hx.
      assert (Hm := Hle (Z.max d y) (or_introl eq_refl)).
      destruct Hx as [<-|[<-|Hx]]; [lia | lia |].
      apply Hle. now right.
Qed.

(** The bins depend on the dates only, not on their order or number. *)
Lemma bins_ext (l l' : list Z) :
  (forall d, In d l <-> In d l') -> pd.bins l = pd.bins l'.
Proof.
  intros H. destruct l as [|d l], l' as [|d' l'].
  - reflexivity.
  - destruct (proj2 (H d') (or_introl eq_refl)).
  - destruct (proj1 (H d) (or_introl eq_refl)).
  - unfold pd.bins.
    destruct (fold_min_spec l d) as [Hi1 Hl1].
    destruct (fold_min_spec l' d') as [Hi2 Hl2].
    destruct (fold_max_spec l d) as [Hi3 Hl3].
    destruct (fold_max_spec l' d') as [Hi4 Hl4].
    apply H in Hi1, Hi3. apply H in Hi2, Hi4.
    apply Hl2 in Hi1. apply Hl1 in Hi2. apply Hl4 in Hi3. apply Hl3 in Hi4.
    f_equal; f_equal; lia.
Qed.

Lemma index_merge_keys {v : pd.version} (left right merged : pd.DataFrame) :
  NoDup (pd.index left) -> NoDup (pd.index right) ->
  pd.merge v left right = Ok merged ->
  pd.index merged = pd.sorted_keys (pd.index left ++ pd.index right).
Proof.
  intros Hl Hr. unfold pd.merge. destruct (pd.merge_fails _ _ _); [discriminate|].
  intros H. injection H as <-. unfold pd.index. cbn [pd.rows].
  apply join_index; try assumption.
  intros key Hin. now apply sorted_keys_in.
Qed.

(** The dates of the frame that [reduce] returns are those of the
    frames. *)
Lemma index_fold_merge_all {v : pd.version} (l : list pd.DataFrame) :
  forall x m,
    sound x -> Forall sound l ->
    fold_left (fun acc y => a <- acc ;; pd.merge v a y) l (Ok x) = Ok m ->
    forall d, In d (pd.index m) <-> In d (pd.index x) \/ In d (all_dates l).
Proof.
  induction l as [|y l IH]; intros x m Hx Hl H d; simpl in H.
  - injection H as <-. unfold all_dates. simpl. tauto.
  - apply Forall_cons_iff in Hl. destruct Hl as [Hy Hl].
    destruct (fold_merge_not_ok _ _ _ H) as [x' Hx'].
    rewrite Hx' in H.
    assert (Hs := merge_sound _ _ _ Hx Hy Hx').
    rewrite (IH _ _ Hs Hl H d).
    rewrite (index_merge_keys _ _ _ (proj1 Hx) (proj1 Hy) Hx').
    unfold all_dates. cbn [map List.concat]. rewrite in_app_iff.
    split.
    + intros [Hin|Hin]; [|tauto].
      apply sorted_keys_in, in_app_or in Hin. tauto.
    + intros [Hin|[Hin|Hin]]; [| |tauto];
        left; apply in_sorted_keys, in_or_app; tauto.
Qed.

Lemma index_reduce_merge_all {v : pd.version} (dfs : list pd.DataFrame) (m : pd.DataFrame) :
  Forall sound dfs ->
  BondCollection.reduce (pd.merge v) dfs = Ok m ->
  forall d, In d (pd.index m) <-> In d (all_dates dfs).
Proof.
  destruct dfs as [|x l]; simpl; [discriminate|].
  intros Hs H d. apply Forall_cons_iff in Hs. destruct Hs as [Hx Hl].
  rewrite (index_fold_merge_all l x m Hx Hl H d).
  unfold all_dates. cbn [map List.concat]. rewrite in_app_iff. tauto.
Qed.

(** What [print_all_coupons] computes from the merged frame, with either
    version of pandas. *)
Lemma report_of_merged (v : pd.version) (dfs : list pd.DataFrame)
    (merged : pd.DataFrame) :
  Forall sound dfs ->
  (v = pd.pandas2 -> Forall plain dfs) ->
  BondCollection.reduce (pd.merge v) dfs = Ok merged ->
  let merged' :=
    pd.setitem merged "total" (pd.sum_dtype v) (pd.sum_axis1 merged) in
  filter (fun p => negb (decimal.is_zero (snd p)))
    (map (fun p => (pd.strftime_Y_m (fst p), snd p))
       (pd.sum_axis1 (pd.resample_M_sum (pd.numeric_only v) merged')))
  = report_of v dfs.
Proof.
  intros Hs Hp Hm merged'.
  assert (Hbins := bins_ext _ _ (index_reduce_merge_all dfs merged Hs Hm)).
  destruct v; cbn [pd.numeric_only pd.sum_dtype report_of] in *.
  - unfold monthly_sums. f_equal.
    unfold pd.sum_axis1 at 1, pd.resample_M_sum. cbv zeta. cbn [pd.rows].
    rewrite !map_map. cbn [fst snd].
    rewrite index_get_numeric_data. unfold merged' at 3.
    rewrite index_setitem_sums, Hbins.
    apply map_ext. intros k. f_equal.
    destruct (reduce_merge_sound k dfs merged Hs Hm) as [Hsm Hpaid].
    rewrite <- Hpaid. exact (bin_sum_is_paid merged k Hsm).
  - unfold doubled_months. f_equal.
    unfold pd.sum_axis1 at 1, pd.resample_M_sum. cbv zeta. cbn [pd.rows].
    rewrite !map_map. cbn [fst snd]. unfold merged' at 3.
    rewrite index_setitem_sums, Hbins.
    apply map_ext. intros k. f_equal.
    destruct (reduce_merge_sound k dfs merged Hs Hm) as [[_ [Hw _]] Hpaid].
    rewrite <- Hpaid.
    exact (bin_sum_is_doubled merged pd.object_ k Hw
             (reduce_merge_plain dfs merged (Hp eq_refl) Hm)).
Qed.

Lemma report_of_frames (v : pd.version) (fuel : nat) (bs : list Bond.t)
    (dfs : list pd.DataFrame) (merged : pd.DataFrame) :
  (v = pd.pandas2 -> forall b, In b bs -> Bond.name b <> "total"%string) ->
  BondCollection.coupon_frames fuel bs = Ok dfs ->
  BondCollection.reduce (pd.merge v) dfs = Ok merged ->
  BondCollection.print_all_coupons v fuel (BondCollection.mk bs)
  = Ok (report_of v dfs).
Proof.
  intros Hnames Hdfs Hm. unfold BondCollection.print_all_coupons.
  cbn [BondCollection.bonds]. rewrite Hdfs. cbn [bind]. rewrite Hm.
  cbn [bind]. f_equal.
  apply (report_of_merged v dfs merged); [| |exact Hm].
  - exact (coupon_frames_sound _ _ _ Hdfs).
  - intros Hv. exact (coupon_frames_plain _ _ _ (Hnames Hv) Hdfs).
Qed.

(** A report that is returned is the months of the bonds with their
    amounts. *)
Lemma report_returned (v : pd.version) (fuel : nat) (bs : list Bond.t)
    (dfs : list pd.DataFrame) (report : pd.Series string) :
  (v = pd.pandas2 -> forall b, In b bs -> Bond.name b <> "total"%string) ->
  BondCollection.coupon_frames fuel bs = Ok dfs ->
  BondCollection.print_all_coupons v fuel (BondCollection.mk bs)
  = Ok report ->
  report = report_of v dfs.
Proof.
  intros Hnames Hdfs Hrun.
  assert (H := Hrun). unfold BondCollection.print_all_coupons in H.
  cbn [BondCollection.bonds] in H. rewrite Hdfs in H. cbn [bind] in H.
  destruct (BondCollection.reduce (pd.merge v) dfs) as [merged| |] eqn:Hm;
    try discriminate.
  rewrite (report_of_frames v fuel bs dfs merged Hnames Hdfs Hm) in Hrun.
  now injection Hrun as <-.
Qed.

Lemma january_february_frames :
  BondCollection.coupon_frames 1 [january; february]
  = Ok [frame_of january [(datetime.mkdate 2020 1 15, decimal.of_int 10)];
        frame_of february [(datetime.mkdate 2020 2 10, decimal.of_int 7)]].
Proof. reflexivity. Qed.

Lemma january_february_names (b : Bond.t) :
  In b [january; february] -> Bond.name b <> "total"%string.
Proof. intros [<-|[<-|[]]]; discriminate. Qed.

(** ** The amounts of the report *)



(** The first month of the demonstration: ten units of the first bond pay
    395.90 on 2019-11-20. *)
Example bonds_collection_november_2019 :
  exists rest,
    (c <- bonds_collection ;;
     BondCollection.print_all_coupons pd.pandas1 7 c)
    = Ok (("2019/11"%string, decimal.lit 3959 1) :: rest).
Proof.
  vm_compute. eexists. apply f_equal.
  apply f_equal2; [apply f_equal; decimal_eq | reflexivity].
Qed.

(** * Further properties of the code *)

(** ** What a schedule never does *)

(** X1. A table that [coupon_payments] returns, whatever the period, has
    the dates of the stepping rule with the coupon in every row; all of
    them lie between the first coupon date and maturity and they increase
    strictly; the table is empty exactly when the first coupon date is
    after maturity. *)
Theorem coupon_payments_within_term (fuel : nat) (self : Bond.t)
    (df : pd.DataFrame)
    (Hrun : Bond.coupon_payments fuel self = Ok df) :
  exists k,
    df = frame_of self (schedule self k)
    /\ (forall i, (i < k)%nat ->
          Bond.first_coupon_date self <= nth_date self i
          <= Bond.maturity_date self)
    /\ (forall i j, (i < j < k)%nat -> nth_date self i < nth_date self j)
    /\ (k = 0%nat
        <-> Bond.maturity_date self < Bond.first_coupon_date self).
Proof.
  apply coupon_payments_returned in Hrun.
  destruct Hrun as [l [Hl [-> _]]].
  apply coupon_payments_loop_bounded in Hl.
  destruct Hl as [k [-> [Hstop Hall]]].
  exists k. unfold nth_date in *. cbn [app].
  assert (Hdays : k <> 0%nat -> 0 < Bond.coupon_days self).
  { intros Hk. specialize (Hall 0%nat ltac:(lia)). nia. }
  split; [reflexivity|]. split; [|split].
  - intros i Hi. split; [|now apply Hall].
    specialize (Hdays ltac:(lia)). nia.
  - intros i j Hij. specialize (Hdays ltac:(lia)). nia.
  - split.
    + intros ->. simpl in Hstop. lia.
    + intros Hgt. destruct k as [|k]; [reflexivity|].
      specialize (Hall 0%nat ltac:(lia)). simpl in Hall. lia.
Qed.

Lemma coupon_payments_within_term_witness :
  Bond.coupon_payments 4 quarterly
  = Ok (frame_of quarterly (schedule quarterly 4))
  /\ exists k,
       frame_of quarterly (schedule quarterly 4)
       = frame_of quarterly (schedule quarterly k)
       /\ (forall i, (i < k)%nat ->
             Bond.first_coupon_date quarterly <= nth_date quarterly i
             <= Bond.maturity_date quarterly)
       /\ (forall i j, (i < j < k)%nat ->
             nth_date quarterly i < nth_date quarterly j)
       /\ (k = 0%nat
           <-> Bond.maturity_date quarterly
               < Bond.first_coupon_date quarterly).
Proof.
  assert (H : Bond.coupon_payments 4 quarterly
              = Ok (frame_of quarterly (schedule quarterly 4)))
    by (vm_compute; reflexivity).
  split; [exact H | exact (coupon_payments_within_term 4 quarterly _ H)].
Defined.

(** ** Periods that are not positive *)

Lemma zero_period_loop (self : Bond.t) (fuel : nat) :
  Bond.coupon_days self = 0 ->
  forall d acc,
    0 < d <= datetime._MAXORDINAL -> d <= Bond.maturity_date self ->
    Bond.coupon_payments_loop fuel self d acc = OutOfFuel.
Proof.
  intros Hdays. induction fuel as [|fuel IH]; intros d acc Hd Hle; simpl;
    destruct (Z.leb_spec d (Bond.maturity_date self)); try lia;
    [reflexivity|].
  rewrite Hdays. cbn [datetime.timedelta Z.abs Z.ltb Z.compare bind].
  unfold datetime.date_add. rewrite Z.add_0_r.
  destruct (Z.ltb_spec 0 d); [|lia].
  destruct (Z.leb_spec d datetime._MAXORDINAL); [|lia].
  cbn [andb bind]. now apply IH.
Qed.

(** X2. With a period of zero days and a first coupon date up to maturity
    the date never moves: neither [n] nor [coupon_payments] returns or
    raises, however long they run. *)
Theorem zero_period_never_finishes (self : Bond.t)
    (Hdays : Bond.coupon_days self = 0)
    (Hfirst : valid_date (Bond.first_coupon_date self))
    (Hle : Bond.first_coupon_date self <= Bond.maturity_date self) :
  forall fuel,
    Bond.n fuel self = OutOfFuel
    /\ Bond.coupon_payments fuel self = OutOfFuel.
Proof.
  intros fuel. rewrite n_is_length, coupon_payments_frame.
  now rewrite (zero_period_loop self fuel Hdays _ [] Hfirst Hle).
Qed.

Lemma zero_period_never_finishes_witness :
  Bond.coupon_days stalled = 0
  /\ valid_date (Bond.first_coupon_date stalled)
  /\ Bond.first_coupon_date stalled <= Bond.maturity_date stalled
  /\ forall fuel,
       Bond.n fuel stalled = OutOfFuel
       /\ Bond.coupon_payments fuel stalled = OutOfFuel.
Proof.
  assert (H1 : Bond.coupon_days stalled = 0) by reflexivity.
  assert (H2 : valid_date (Bond.first_coupon_date stalled))
    by (vm_compute; split; [reflexivity | discriminate]).
  assert (H3 : Bond.first_coupon_date stalled
               <= Bond.maturity_date stalled)
    by (vm_compute; discriminate).
  split; [exact H1|]. split; [exact H2|]. split; [exact H3|].
  exact (zero_period_never_finishes stalled H1 H2 H3).
Defined.

Lemma negative_period_loop (self : Bond.t) (fuel : nat) :
  Bond.coupon_days self < 0 ->
  forall d acc,
    0 < d -> d <= Bond.maturity_date self -> d <= Z.of_nat fuel ->
    Bond.coupon_payments_loop fuel self d acc = Raise OverflowError.
Proof.
  intros Hdays. induction fuel as [|fuel IH]; intros d acc Hd Hle Hfuel;
    [lia|].
  simpl. destruct (Z.leb_spec d (Bond.maturity_date self)); [|lia].
  unfold datetime.timedelta.
  destruct (999999999 <? Z.abs (Bond.coupon_days self)); [reflexivity|].
  cbn [bind]. unfold datetime.date_add.
  destruct (Z.ltb_spec 0 (d + Bond.coupon_days self)); [|reflexivity].
  destruct (d + Bond.coupon_days self <=? datetime._MAXORDINAL);
    [|reflexivity].
  cbn [andb bind]. apply IH; lia.
Qed.

(** X3. With a negative period and a first coupon date up to maturity the
    date moves back until it leaves the calendar: [n] and
    [coupon_payments] raise [OverflowError], after at most as many steps
    as the ordinal of the first coupon date. *)
Theorem negative_period_overflows (self : Bond.t)
    (Hdays : Bond.coupon_days self < 0)
    (Hfirst : 0 < Bond.first_coupon_date self)
    (Hle : Bond.first_coupon_date self <= Bond.maturity_date self) :
  forall fuel,
    Bond.first_coupon_date self <= Z.of_nat fuel ->
    Bond.n fuel self = Raise OverflowError
    /\ Bond.coupon_payments fuel self = Raise OverflowError.
Proof.
  intros fuel Hfuel. rewrite n_is_length, coupon_payments_frame.
  now rewrite (negative_period_loop self fuel Hdays _ [] Hfirst Hle Hfuel).
Qed.

Lemma negative_period_overflows_witness :
  Bond.coupon_days backwards < 0
  /\ 0 < Bond.first_coupon_date backwards
  /\ Bond.first_coupon_date backwards <= Bond.maturity_date backwards
  /\ forall fuel,
       Bond.first_coupon_date backwards <= Z.of_nat fuel ->
       Bond.n fuel backwards = Raise OverflowError
       /\ Bond.coupon_payments fuel backwards = Raise OverflowError.
Proof.
  assert (H1 : Bond.coupon_days backwards < 0) by reflexivity.
  assert (H2 : 0 < Bond.first_coupon_date backwards) by reflexivity.
  assert (H3 : Bond.first_coupon_date backwards
               <= Bond.maturity_date backwards)
    by (vm_compute; discriminate).
  split; [exact H1|]. split; [exact H2|]. split; [exact H3|].
  exact (negative_period_overflows backwards H1 H2 H3).
Defined.

(** A bond of a few days runs back out of the calendar. *)
Example early_backwards_overflows :
  Bond.n 3 (Bond.mk "E" (decimal.of_int 1) (decimal.of_int 1) (-2) 5 9)
  = Raise OverflowError.
Proof. reflexivity. Qed.

(** ** The number of coupons in closed form *)

(** X4. With a positive period, a first coupon date of the calendar up to
    maturity and the date after the last coupon still in the calendar,
    [n] returns the quotient of the days from the first coupon date to
    maturity by the period, plus one. *)
Theorem n_is_quotient_plus_one (self : Bond.t)
    (Hdays : 0 < Bond.coupon_days self)
    (Hfirst : valid_date (Bond.first_coupon_date self))
    (Hle : Bond.first_coupon_date self <= Bond.maturity_date self)
    (Hstop : nth_date self (periods self) <= datetime._MAXORDINAL) :
  let q := (Bond.maturity_date self - Bond.first_coupon_date self)
           / Bond.coupon_days self in
  forall fuel, q < Z.of_nat fuel ->
    fmap Z.of_nat (Bond.n fuel self) = Ok (q + 1).
Proof.
  intros q fuel Hfuel.
  destruct (periods_spec self Hdays) as [Hall Hgt].
  assert (Hq : 0 <= q).
  { subst q. apply Z.div_pos; lia. }
  assert (Hp : Z.of_nat (periods self) = q + 1).
  { unfold periods. destruct (Z.leb_spec (Bond.first_coupon_date self)
                                (Bond.maturity_date self)); [|lia].
    fold q. lia. }
  rewrite n_is_length.
  rewrite (coupon_payments_loop_schedule self (periods self) fuel);
    try assumption; try (apply Hfirst); try lia.
  cbn [fmap bind]. rewrite app_nil_l, length_map, length_seq.
  now rewrite Hp.
Qed.

Lemma n_is_quotient_plus_one_witness :
  0 < Bond.coupon_days quarterly
  /\ valid_date (Bond.first_coupon_date quarterly)
  /\ Bond.first_coupon_date quarterly <= Bond.maturity_date quarterly
  /\ nth_date quarterly (periods quarterly) <= datetime._MAXORDINAL
  /\ forall fuel,
       (Bond.maturity_date quarterly - Bond.first_coupon_date quarterly)
       / Bond.coupon_days quarterly < Z.of_nat fuel ->
       fmap Z.of_nat (Bond.n fuel quarterly)
       = Ok ((Bond.maturity_date quarterly
              - Bond.first_coupon_date quarterly)
             / Bond.coupon_days quarterly + 1).
Proof.
  assert (H1 : 0 < Bond.coupon_days quarterly) by reflexivity.
  assert (H2 : valid_date (Bond.first_coupon_date quarterly))
    by (vm_compute; split; [reflexivity | discriminate]).
  assert (H3 : Bond.first_coupon_date quarterly
               <= Bond.maturity_date quarterly)
    by (vm_compute; discriminate).
  assert (H4 : nth_date quarterly (periods quarterly)
               <= datetime._MAXORDINAL)
    by (vm_compute; discriminate).
  split; [exact H1|]. split; [exact H2|]. split; [exact H3|].
  split; [exact H4|].
  exact (n_is_quotient_plus_one quarterly H1 H2 H3 H4).
Defined.

(** ** Scaling and the schedule *)

(** Two bonds with the same period and maturity run the same loop; the
    rows differ by the coupon only. *)
Lemma coupon_payments_loop_coupon (b b' : Bond.t) (fuel : nat) :
  Bond.coupon_days b' = Bond.coupon_days b ->
  Bond.maturity_date b' = Bond.maturity_date b ->
  forall d acc,
    Bond.coupon_payments_loop fuel b' d
      (map (fun p => (fst p, Bond.coupon b')) acc)
    = fmap (map (fun p => (fst p, Bond.coupon b')))
        (Bond.coupon_payments_loop fuel b d acc).
Proof.
  intros Hdays Hmat. induction fuel as [|fuel IH]; intros d acc; simpl;
    rewrite Hmat; destruct (d <=? Bond.maturity_date b); try reflexivity.
  rewrite Hdays.
  destruct (datetime.timedelta (Bond.coupon_days b)) as [delta| |];
    try reflexivity.
  cbn [bind].
  destruct (datetime.date_add d delta) as [d'| |]; try reflexivity.
  cbn [bind]. rewrite <- IH. f_equal. now rewrite map_app.
Qed.

(** No name of a scaled bond is [date]. *)
Lemma starred_not_date (s t : string) :
  (s ++ "*" ++ t)%string <> "date"%string.
Proof.
  intros H.
  destruct s as [|a1 [|a2 [|a3 [|a4 [|a5 s]]]]]; simpl in H;
    inversion H.
Qed.



(** ** The coupon rate *)

(** X6. [coupon_rate] divides twice, by the period and by the face value.
    With both not zero it returns the annualized coupon over the face
    value. Otherwise it fails: with [DivisionByZero] when the coupon is not
    zero, with [InvalidOperation] when it is. *)
Theorem coupon_rate_cases (b : Bond.t) :
  (Bond.coupon_days b <> 0 -> Bond.face_value b <> 0%Qc ->
   Bond.coupon_rate b = Ok (annual_coupon b / Bond.face_value b)%Qc)
  /\ (Bond.coupon_rate b = Raise DivisionByZero
      <-> Bond.coupon b <> 0%Qc
          /\ (Bond.coupon_days b = 0 \/ Bond.face_value b = 0%Qc))
  /\ (Bond.coupon_rate b = Raise InvalidOperation
      <-> Bond.coupon b = 0%Qc
          /\ (Bond.coupon_days b = 0 \/ Bond.face_value b = 0%Qc)).
Proof.
  unfold Bond.coupon_rate. rewrite coupon_per_year_cases.
  destruct (Z.eqb_spec (Bond.coupon_days b) 0) as [H0|Hdays].
  - destruct (decimal.is_zero (Bond.coupon b)) eqn:Hc;
      [apply is_zero_true in Hc | apply is_zero_false in Hc];
      cbn [bind]; repeat split; intros; try discriminate; try tauto.
  - cbn [bind]. unfold decimal.truediv.
    assert (Ha := annual_coupon_zero b Hdays).
    destruct (decimal.is_zero (Bond.face_value b)) eqn:Hf;
      [apply is_zero_true in Hf | apply is_zero_false in Hf];
      (destruct (decimal.is_zero (annual_coupon b)) eqn:Hc;
       [apply is_zero_true in Hc | apply is_zero_false in Hc]).
    all: repeat split; intros; try discriminate; try congruence; try tauto.
Qed.

(** A bond without face value and one without coupon or face value. *)
Example coupon_rate_without_face_value :
  Bond.coupon_rate
    (Bond.mk "F" (decimal.of_int 0) (decimal.of_int 10) 182 1 2)
  = Raise DivisionByZero
  /\ Bond.coupon_rate
       (Bond.mk "F" (decimal.of_int 0) (decimal.of_int 0) 182 1 2)
     = Raise InvalidOperation.
Proof. split; vm_compute; reflexivity. Qed.

(** ** The function whose root is the yield *)

(** X8. Where the count of coupons of the bond is [n], the function fails
    at the rate 0 with [InvalidOperation] (it divides 0 by 0), and at the
    rate -1 with [DivisionByZero] when the bond has a coupon date and with
    [InvalidOperation] (0 ** 0) when it has none. *)
Theorem yield_function_failures (fuel : nat) (d : BondDeal.t) (n : nat)
    (Hn : Bond.n fuel (BondDeal.bond d) = Ok n) :
  BondDeal._yield_to_maturity_function fuel d (decimal.of_int 0)
  = Raise InvalidOperation
  /\ BondDeal._yield_to_maturity_function fuel d (decimal.of_int (-1))
     = (if Nat.eqb n 0 then Raise InvalidOperation
        else Raise DivisionByZero).
Proof.
  split.
  - unfold BondDeal._yield_to_maturity_function. rewrite Hn. cbn [bind].
    unfold decimal.pow, decimal.add.
    replace (decimal.of_int 1 + decimal.of_int 0)%Qc with 1%Qc
      by (apply Qc_is_canon; reflexivity).
    rewrite Qcpower_1. cbn [bind].
    replace (decimal.is_zero 1%Qc && Nat.eqb n 0) with false
      by (destruct n; reflexivity).
    cbn [bind]. reflexivity.
  - unfold BondDeal._yield_to_maturity_function. rewrite Hn. cbn [bind].
    unfold decimal.pow, decimal.add.
    replace (decimal.of_int 1 + decimal.of_int (-1))%Qc with 0%Qc
      by (apply Qc_is_canon; reflexivity).
    destruct n as [|n]; [reflexivity|].
    cbn [Nat.eqb andb bind].
    replace (Qcpower 0 (S n)) with 0%Qc by (simpl; ring).
    reflexivity.
Qed.

Lemma yield_function_failures_witness :
  Bond.n 7 (BondDeal.bond ofz_29012_deal) = Ok 7%nat
  /\ BondDeal._yield_to_maturity_function 7 ofz_29012_deal (decimal.of_int 0)
     = Raise InvalidOperation
  /\ BondDeal._yield_to_maturity_function 7 ofz_29012_deal
       (decimal.of_int (-1))
     = (if Nat.eqb 7 0 then Raise InvalidOperation
        else Raise DivisionByZero).
Proof.
  assert (H : Bond.n 7 (BondDeal.bond ofz_29012_deal) = Ok 7%nat)
    by (vm_compute; reflexivity).
  split; [exact H | exact (yield_function_failures 7 ofz_29012_deal 7%nat H)].
Defined.

(** ** The same program from pandas 2.0 on *)

(** X9. From pandas 2.0 on, a report that [print_all_coupons] returns for
    bonds none of which is named [total] is this: the months from that of
    the earliest coupon date of the portfolio to that of the latest, in
    order, each with twice the sum of the coupons the bonds pay in it, and
    the months with the amount zero left out. The sums of the rows stay
    objects, and [resample('M').sum()] takes every column: those of the
    bonds and the column [total] of their sums. *)
Theorem report_is_doubled_months (fuel : nat) (self : BondCollection.t)
    (dfs : list pd.DataFrame) (report : pd.Series string)
    (Hnames : forall b, In b (BondCollection.bonds self) ->
                        Bond.name b <> "total"%string)
    (Hdfs : BondCollection.coupon_frames fuel (BondCollection.bonds self)
            = Ok dfs)
    (Hrun : BondCollection.print_all_coupons pd.pandas2 fuel self
            = Ok report) :
  report = doubled_months dfs.
Proof.
  destruct self as [bs]. cbn [BondCollection.bonds] in *.
  exact (report_returned pd.pandas2 fuel bs dfs report (fun _ => Hnames)
           Hdfs Hrun).
Qed.

Lemma report_is_doubled_months_witness :
  [("2020/01"%string, decimal.of_int 20);
   ("2020/02"%string, decimal.of_int 14)]
  = doubled_months
      [frame_of january [(datetime.mkdate 2020 1 15, decimal.of_int 10)];
       frame_of february [(datetime.mkdate 2020 2 10, decimal.of_int 7)]].
Proof.
  exact (report_is_doubled_months 1 (BondCollection.mk [january; february])
           _ _ january_february_names january_february_frames
           january_february_doubled).
Defined.

(** ** Portfolios for which there is no report *)

Lemma coupon_frames_raise (fuel : nat) (b : Bond.t) (bs2 : list Bond.t)
    (e : exn) (bs1 : list Bond.t) :
  (forall b', In b' bs1 -> exists df, Bond.coupon_payments fuel b' = Ok df) ->
  Bond.coupon_payments fuel b = Raise e ->
  BondCollection.coupon_frames fuel (bs1 ++ b :: bs2) = Raise e.
Proof.
  intros Hbs1 Hb. induction bs1 as [|b1 bs1 IH]; simpl.
  - rewrite Hb. reflexivity.
  - destruct (Hbs1 b1 (or_introl eq_refl)) as [df ->]. cbn [bind].
    rewrite IH; [reflexivity|]. intros b' Hin. apply Hbs1. now right.
Qed.

(** X10. Without a bond [print_all_coupons] raises [TypeError], the error
    of [reduce] on an empty list without an initial value; and when the
    schedule of a bond raises, the schedules of the bonds before it having
    returned, [print_all_coupons] raises the same error, whatever the
    bonds after it are. *)
Theorem report_failures (v : pd.version) (fuel : nat) :
  BondCollection.print_all_coupons v fuel (BondCollection.mk [])
  = Raise TypeError
  /\ forall bs1 b bs2 e,
       (forall b', In b' bs1 ->
                   exists df, Bond.coupon_payments fuel b' = Ok df) ->
       Bond.coupon_payments fuel b = Raise e ->
       BondCollection.print_all_coupons v fuel
         (BondCollection.mk (bs1 ++ b :: bs2))
       = Raise e.
Proof.
  split; [reflexivity|]. intros bs1 b bs2 e Hbs1 Hb.
  unfold BondCollection.print_all_coupons. cbn [BondCollection.bonds].
  now rewrite (coupon_frames_raise fuel b bs2 e bs1 Hbs1 Hb).
Qed.

(** ** Portfolios for which there is a report *)

Lemma clash_same (l : list bool) :
  existsb (fun p => fst p && negb (snd p)) (combine l l) = false.
Proof.
  induction l as [|a l IH]; [reflexivity|]. simpl. rewrite IH.
  now destruct a.
Qed.

Lemma rename_disjoint (other : list string) (sfx : string)
    (l : list string) :
  (forall c, In c l -> ~ In c other) -> map (pd.rename other sfx) l = l.
Proof.
  induction l as [|c l IH]; intros H; [reflexivity|]. simpl.
  unfold pd.rename at 1. rewrite (mem_false c other).
  - f_equal. apply IH. intros c' Hc'. apply H. now right.
  - apply H. now left.
Qed.

(** Frames without a common label are merged without an error and
    without a suffix. *)
Lemma merge_disjoint {v : pd.version} (left right : pd.DataFrame) :
  (forall c, In c (pd.columns left) -> ~ In c (pd.columns right)) ->
  exists m, pd.merge v left right = Ok m
            /\ pd.columns m = pd.columns left ++ pd.columns right.
Proof.
  intros H. unfold pd.merge, pd.merge_fails.
  rewrite (rename_disjoint _ _ _ H).
  rewrite (rename_disjoint (pd.columns left) "_y" (pd.columns right)).
  - unfold pd.suffix_clash. rewrite !clash_same. cbn [orb].
    rewrite andb_false_r. eexists. split; reflexivity.
  - intros c Hr Hl. exact (H c Hl Hr).
Qed.

Lemma NoDup_app_disjoint {A : Type} (l l' : list A) :
  NoDup (l ++ l') -> forall a, In a l -> ~ In a l'.
Proof.
  induction l as [|x l IH]; intros Hnd a Hin; [destruct Hin|].
  simpl in Hnd. apply NoDup_cons_iff in Hnd. destruct Hnd as [Hx Hnd].
  destruct Hin as [<-|Hin].
  - intros Ha. apply Hx, in_or_app. now right.
  - now apply IH.
Qed.

Lemma fold_merge_returns {v : pd.version} (l : list pd.DataFrame) :
  forall x,
    NoDup (pd.columns x ++ List.concat (map pd.columns l)) ->
    exists m,
      fold_left (fun acc y => a <- acc ;; pd.merge v a y) l (Ok x) = Ok m.
Proof.
  induction l as [|y l IH]; intros x Hnd; simpl.
  - now exists x.
  - cbn [map List.concat] in Hnd.
    destruct (merge_disjoint (v := v) x y) as [x' [Hx' Hcols]].
    + intros c Hc Hy.
      apply (NoDup_app_disjoint _ _ Hnd c Hc), in_or_app. now left.
    + rewrite Hx'. apply IH. rewrite Hcols, <- app_assoc. exact Hnd.
Qed.

Lemma columns_coupon_frames (fuel : nat) (bs : list Bond.t) :
  forall dfs,
    BondCollection.coupon_frames fuel bs = Ok dfs ->
    List.concat (map pd.columns dfs) = map Bond.name bs.
Proof.
  induction bs as [|b bs IH]; intros dfs H; simpl in H.
  - now injection H as <-.
  - destruct (Bond.coupon_payments fuel b) as [df| |] eqn:Hb;
      try discriminate.
    apply coupon_payments_returned in Hb. destruct Hb as [l [_ [-> _]]].
    cbn [bind] in H.
    destruct (BondCollection.coupon_frames fuel bs) as [dfs0| |];
      try discriminate.
    cbn [bind] in H. injection H as <-. simpl. f_equal. now apply IH.
Qed.

Lemma coupon_frames_returns (fuel : nat) (bs : list Bond.t) :
  (forall b, In b bs -> exists df, Bond.coupon_payments fuel b = Ok df) ->
  exists dfs, BondCollection.coupon_frames fuel bs = Ok dfs.
Proof.
  induction bs as [|b bs IH]; intros H; simpl; [now eexists|].
  destruct (H b (or_introl eq_refl)) as [df ->]. cbn [bind].
  destruct IH as [dfs ->]; [intros b' Hb'; apply H; now right|].
  cbn [bind]. now eexists.
Qed.

Lemma reduce_merge_returns {v : pd.version} (fuel : nat) (bs : list Bond.t)
    (dfs : list pd.DataFrame) :
  bs <> [] -> NoDup (map Bond.name bs) ->
  BondCollection.coupon_frames fuel bs = Ok dfs ->
  exists m, BondCollection.reduce (pd.merge v) dfs = Ok m.
Proof.
  intros Hne Hnd Hdfs.
  assert (Hcols := columns_coupon_frames fuel bs dfs Hdfs).
  destruct dfs as [|x l].
  - destruct bs; [congruence | discriminate].
  - cbn [BondCollection.reduce]. apply fold_merge_returns.
    cbn [map List.concat] in Hcols. rewrite Hcols. exact Hnd.
Qed.


Lemma january_february_return (b : Bond.t) :
  In b [january; february] ->
  exists df, Bond.coupon_payments 1 b = Ok df.
Proof. intros [<-|[<-|[]]]; eexists; vm_compute; reflexivity. Qed.

Lemma january_february_distinct :
  NoDup (map Bond.name [january; february]).
Proof.
  simpl. constructor; [intros [H|[]]; discriminate|].
  constructor; [intros []|]. constructor.
Qed.


(** ** The order of the bonds *)

Lemma total_perm (l l' : list decimal.Decimal) :
  Permutation l l' -> total l = total l'.
Proof.
  induction 1 as [|x l l' _ IH|x y l|l l' l'' _ IH1 _ IH2].
  - reflexivity.
  - simpl. f_equal. exact IH.
  - simpl. decimal_ring.
  - now transitivity (total l').
Qed.

Lemma all_dates_in (dfs : list pd.DataFrame) (d : Z) :
  In d (all_dates dfs) <-> exists df, In df dfs /\ In d (pd.index df).
Proof.
  unfold all_dates. rewrite in_concat. split.
  - intros [l [Hl Hd]]. apply in_map_iff in Hl.
    destruct Hl as [df [<- Hdf]]. eauto.
  - intros [df [Hdf Hd]]. exists (pd.index df). split; [|exact Hd].
    now apply in_map.
Qed.

Lemma report_of_perm (v : pd.version) (dfs dfs' : list pd.DataFrame) :
  Permutation dfs dfs' -> report_of v dfs = report_of v dfs'.
Proof.
  intros Hp.
  assert (Hb : pd.bins (all_dates dfs) = pd.bins (all_dates dfs')).
  { apply bins_ext. intros d. rewrite !all_dates_in.
    split; intros [df [Hdf Hd]]; exists df; split; try assumption.
    + now apply (Permutation_in _ Hp).
    + now apply (Permutation_in _ (Permutation_sym Hp)). }
  assert (Ht : forall k, total (map (paid_in_month k) dfs)
                         = total (map (paid_in_month k) dfs'))
    by (intros k; apply total_perm; now apply Permutation_map).
  destruct v; cbn [report_of]; unfold monthly_sums, doubled_months;
    rewrite Hb; f_equal; apply map_ext; intros k; now rewrite Ht.
Qed.

Lemma coupon_frames_perm (fuel : nat) (bs bs' : list Bond.t) :
  Permutation bs bs' ->
  forall dfs,
    BondCollection.coupon_frames fuel bs = Ok dfs ->
    exists dfs',
      BondCollection.coupon_frames fuel bs' = Ok dfs'
      /\ Permutation dfs dfs'.
Proof.
  induction 1 as [|b l l' _ IH|b1 b2 l|l l' l'' _ IH1 _ IH2];
    intros dfs H.
  - exists dfs. auto.
  - simpl in H |- *.
    destruct (Bond.coupon_payments fuel b) as [df| |]; try discriminate.
    cbn [bind] in H |- *.
    destruct (BondCollection.coupon_frames fuel l) as [dfs0| |];
      try discriminate.
    cbn [bind] in H. injection H as <-.
    destruct (IH _ eq_refl) as [dfs' [-> Hp]]. cbn [bind].
    eexists. split; [reflexivity|]. now constructor.
  - simpl in H |- *.
    destruct (Bond.coupon_payments fuel b1) as [df1| |];
      destruct (Bond.coupon_payments fuel b2) as [df2| |];
      try discriminate.
    cbn [bind] in H |- *.
    destruct (BondCollection.coupon_frames fuel l) as [dfs0| |];
      try discriminate.
    cbn [bind] in H |- *. injection H as <-.
    eexists. split; [reflexivity|]. constructor.
  - destruct (IH1 _ H) as [dfs1 [H1 Hp1]].
    destruct (IH2 _ H1) as [dfs2 [H2 Hp2]].
    exists dfs2. split; [exact H2|]. now transitivity dfs1.
Qed.

(** X12. The report does not depend on the order of the bonds: with names
    that differ from each other and from [total], a report returned for
    the bonds in one order is returned for them in every other order. *)
Theorem report_order_independent (v : pd.version) (fuel : nat)
    (bs bs' : list Bond.t) (report : pd.Series string)
    (Hperm : Permutation bs bs')
    (Hnames : NoDup (map Bond.name bs))
    (Htotal : forall b, In b bs -> Bond.name b <> "total"%string)
    (Hrun : BondCollection.print_all_coupons v fuel (BondCollection.mk bs)
            = Ok report) :
  BondCollection.print_all_coupons v fuel (BondCollection.mk bs')
  = Ok report.
Proof.
  assert (H := Hrun). unfold BondCollection.print_all_coupons in H.
  cbn [BondCollection.bonds] in H.
  destruct (BondCollection.coupon_frames fuel bs) as [dfs| |] eqn:Hdfs;
    try discriminate.
  cbn [bind] in H.
  destruct (BondCollection.reduce (pd.merge v) dfs) as [merged| |] eqn:Hm;
    try discriminate.
  clear H.
  rewrite (report_of_frames v fuel bs dfs merged (fun _ => Htotal) Hdfs Hm)
    in Hrun.
  injection Hrun as <-.
  destruct (coupon_frames_perm fuel bs bs' Hperm dfs Hdfs)
    as [dfs' [Hdfs' Hp]].
  assert (Hne : bs' <> []).
  { intros ->. apply Permutation_sym, Permutation_nil in Hperm. subst bs.
    simpl in Hdfs. injection Hdfs as <-. discriminate. }
  assert (Hnames' : NoDup (map Bond.name bs')).
  { apply (Permutation_NoDup (l := map Bond.name bs)); [|exact Hnames].
    now apply Permutation_map. }
  destruct (reduce_merge_returns (v := v) fuel bs' dfs' Hne Hnames' Hdfs')
    as [merged' Hm'].
  rewrite (report_of_frames v fuel bs' dfs' merged').
  - f_equal. symmetry. now apply report_of_perm.
  - intros _ b Hb. apply Htotal.
    now apply (Permutation_in _ (Permutation_sym Hperm)).
  - exact Hdfs'.
  - exact Hm'.
Qed.

Lemma report_order_independent_witness :
  BondCollection.print_all_coupons pd.pandas1 1
    (BondCollection.mk [february; january])
  = Ok [("2020/01"%string, decimal.of_int 10);
        ("2020/02"%string, decimal.of_int 7)].
Proof.
  apply (report_order_independent pd.pandas1 1 [january; february]
           [february; january]).
  - apply perm_swap.
  - exact january_february_distinct.
  - exact january_february_names.
  - exact january_february_report.
Defined.

(** ** The calendar: months in the order of the dates *)

(** The year and the month that [_ord2ymd] returns, by the quotients it
    takes. *)
Lemma year_month_parts (d : datetime.date) :
  let a := d - 1 in
  let r400 := a mod 146097 in
  let q100 := r400 / 36524 in
  let r100 := r400 mod 36524 in
  let q4 := r100 / 1461 in
  let r4 := r100 mod 1461 in
  let q1 := r4 / 365 in
  let y := a / 146097 * 400 + 1 + (q100 * 100 + q4 * 4 + q1) in
  datetime.year_month d
  = if (q1 =? 4) || (q100 =? 4) then (y - 1, 12)
    else (y, month_of_day ((q1 =? 3) && (negb (q4 =? 24) || (q100 =? 3)))
               (r4 mod 365)).
Proof.
  cbv zeta. unfold datetime.year_month, datetime._ord2ymd, month_of_day.
  cbv zeta.
  change datetime._DI400Y with 146097. change datetime._DI100Y with 36524.
  change datetime._DI4Y with 1461.
  destruct (_ || _); [reflexivity|].
  destruct (_ <? _); reflexivity.
Qed.

Lemma _days_before_year_succ (y : Z) :
  datetime._days_before_year (y + 1)
  = datetime._days_before_year y + 365
    + (if datetime._is_leap y then 1 else 0).
Proof.
  unfold datetime._days_before_year, datetime._is_leap. cbv zeta.
  replace (y + 1 - 1) with y by lia.
  destruct (Z.eqb_spec (y mod 4) 0) as [H4|H4];
    destruct (Z.eqb_spec (y mod 100) 0) as [H100|H100];
    destruct (Z.eqb_spec (y mod 400) 0) as [H400|H400];
    cbn [negb andb orb]; Z.div_mod_to_equations; lia.
Qed.

Lemma _days_before_year_lt (y y' : Z) :
  y < y' ->
  datetime._days_before_year y + 365
  + (if datetime._is_leap y then 1 else 0)
  <= datetime._days_before_year y'.
Proof.
  intros H. replace y' with (y + 1 + Z.of_nat (Z.to_nat (y' - y - 1))) by lia.
  induction (Z.to_nat (y' - y - 1)) as [|k IH].
  - rewrite Z.add_0_r, _days_before_year_succ. lia.
  - replace (y + 1 + Z.of_nat (S k)) with (y + 1 + Z.of_nat k + 1) by lia.
    rewrite _days_before_year_succ. destruct (datetime._is_leap (_ + _)); lia.
Qed.

Section YearParts.

Variables q400 q100 q4 q1 : Z.
Hypothesis H100 : 0 <= q100 <= 3.
Hypothesis H4 : 0 <= q4 <= 24.
Hypothesis H1 : 0 <= q1 <= 3.

Let year := q400 * 400 + 1 + (q100 * 100 + q4 * 4 + q1).

Lemma _is_leap_parts :
  datetime._is_leap year
  = (q1 =? 3) && (negb (q4 =? 24) || (q100 =? 3)).
Proof.
  unfold datetime._is_leap, year.
  destruct (Z.eqb_spec q1 3); destruct (Z.eqb_spec q4 24);
    destruct (Z.eqb_spec q100 3);
    destruct (Z.eqb_spec ((q400 * 400 + 1 + (q100 * 100 + q4 * 4 + q1)) mod 4) 0);
    destruct (Z.eqb_spec ((q400 * 400 + 1 + (q100 * 100 + q4 * 4 + q1)) mod 100) 0);
    destruct (Z.eqb_spec ((q400 * 400 + 1 + (q100 * 100 + q4 * 4 + q1)) mod 400) 0);
    cbn [negb andb orb]; try reflexivity; exfalso;
    Z.div_mod_to_equations; lia.
Qed.

Lemma _days_before_year_parts :
  datetime._days_before_year year
  = 146097 * q400 + 36524 * q100 + 1461 * q4 + 365 * q1.
Proof.
  unfold datetime._days_before_year, year. cbv zeta.
  Z.div_mod_to_equations. lia.
Qed.

End YearParts.

(** What [_ord2ymd] returns for an ordinal: the year in which the day
    falls, by [_days_before_year], and the month of its day of the year. *)
Lemma ordinal_parts (d : datetime.date) :
  exists y doy,
    datetime.year_month d = (y, month_of_day (datetime._is_leap y) doy)
    /\ 0 <= doy <= (if datetime._is_leap y then 365 else 364)
    /\ d - 1 = datetime._days_before_year y + doy.
Proof.
  assert (Hp := year_month_parts d). cbv zeta in Hp.
  set (a := d - 1) in *.
  assert (E400 := Z.div_mod a 146097 ltac:(lia)).
  assert (B400 := Z.mod_pos_bound a 146097 ltac:(lia)).
  set (q400 := a / 146097) in *. set (r400 := a mod 146097) in *.
  assert (E100 := Z.div_mod r400 36524 ltac:(lia)).
  assert (B100 := Z.mod_pos_bound r400 36524 ltac:(lia)).
  set (q100 := r400 / 36524) in *. set (r100 := r400 mod 36524) in *.
  assert (E4 := Z.div_mod r100 1461 ltac:(lia)).
  assert (B4 := Z.mod_pos_bound r100 1461 ltac:(lia)).
  set (q4 := r100 / 1461) in *. set (r4 := r100 mod 1461) in *.
  assert (E1 := Z.div_mod r4 365 ltac:(lia)).
  assert (B1 := Z.mod_pos_bound r4 365 ltac:(lia)).
  set (q1 := r4 / 365) in *. set (r := r4 mod 365) in *.
  clearbody q400 r400 q100 r100 q4 r4 q1 r.
  destruct (Z.eqb_spec q1 4) as [Hq1|Hq1];
    [|destruct (Z.eqb_spec q100 4) as [Hq100|Hq100]];
    cbn [orb] in Hp.
  - exists (q400 * 400 + 1 + (q100 * 100 + q4 * 4 + 3)), 365.
    assert (Hleap := _is_leap_parts q400 q100 q4 3
                       ltac:(lia) ltac:(lia) ltac:(lia)).
    assert (Hdby := _days_before_year_parts q400 q100 q4 3
                      ltac:(lia) ltac:(lia) ltac:(lia)).
    destruct (Z.eqb_spec q4 24) as [Hq4|Hq4]; [lia|].
    cbn [Z.eqb Pos.eqb negb andb orb] in Hleap.
    rewrite Hleap, Hdby, Hp. split; [|split].
    + f_equal. lia.
    + lia.
    + lia.
  - exists (q400 * 400 + 1 + (3 * 100 + 24 * 4 + 3)), 365.
    assert (Hleap := _is_leap_parts q400 3 24 3
                       ltac:(lia) ltac:(lia) ltac:(lia)).
    assert (Hdby := _days_before_year_parts q400 3 24 3
                      ltac:(lia) ltac:(lia) ltac:(lia)).
    cbn [Z.eqb Pos.eqb negb andb orb] in Hleap.
    rewrite Hleap, Hdby, Hp. split; [|split].
    + f_equal. lia.
    + lia.
    + lia.
  - exists (q400 * 400 + 1 + (q100 * 100 + q4 * 4 + q1)), r.
    assert (Hleap := _is_leap_parts q400 q100 q4 q1
                       ltac:(lia) ltac:(lia) ltac:(lia)).
    assert (Hdby := _days_before_year_parts q400 q100 q4 q1
                      ltac:(lia) ltac:(lia) ltac:(lia)).
    rewrite Hleap, Hdby, Hp. split; [reflexivity|]. split.
    + destruct (_ && _); lia.
    + lia.
Qed.

(** Within a year the month does not decrease from a day to the next,
    and it is one of the twelve. *)
Lemma month_of_day_step (leap : bool) (n : Z) :
  0 <= n < 365 ->
  month_of_day leap n <= month_of_day leap (n + 1)
  /\ 1 <= month_of_day leap n
  /\ month_of_day leap (n + 1) <= 12.
Proof.
  intros Hn.
  assert (H : forallb
                (fun i =>
                   let n := Z.of_nat i in
                   (month_of_day leap n <=? month_of_day leap (n + 1))
                   && (1 <=? month_of_day leap n)
                   && (month_of_day leap (n + 1) <=? 12))
                (seq 0 365) = true)
    by (destruct leap; vm_compute; reflexivity).
  rewrite forallb_forall in H. specialize (H (Z.to_nat n)).
  cbv zeta in H. rewrite Z2Nat.id in H by lia.
  rewrite !andb_true_iff, !Z.leb_le in H. rewrite <- and_assoc.
  apply H, in_seq. lia.
Qed.

Lemma month_of_day_mono (leap : bool) (n n' : Z) :
  0 <= n <= n' -> n' <= 365 ->
  month_of_day leap n <= month_of_day leap n'.
Proof.
  intros Hn Hn'.
  replace n' with (n + Z.of_nat (Z.to_nat (n' - n))) in * by lia.
  induction (Z.to_nat (n' - n)) as [|k IH]; [rewrite Z.add_0_r; lia|].
  replace (n + Z.of_nat (S k)) with (n + Z.of_nat k + 1) in * by lia.
  specialize (IH ltac:(lia) ltac:(lia)).
  destruct (month_of_day_step leap (n + Z.of_nat k) ltac:(lia)) as [H _].
  lia.
Qed.

Lemma month_of_day_bounds (leap : bool) (n : Z) :
  0 <= n <= 365 -> 1 <= month_of_day leap n <= 12.
Proof.
  intros Hn. destruct (Z.eq_dec n 365) as [->|Hne].
  - destruct leap; vm_compute; split; discriminate.
  - destruct (month_of_day_step leap n ltac:(lia)) as [H1 [H2 H3]]. lia.
Qed.

(** A later date is in the same month or in a later one. *)
Lemma month_number_mono (d d' : datetime.date) :
  d <= d' -> pd.month_number d <= pd.month_number d'.
Proof.
  intros Hd. unfold pd.month_number. cbv zeta.
  destruct (ordinal_parts d) as [y [doy [-> [Hdoy Ha]]]].
  destruct (ordinal_parts d') as [y' [doy' [-> [Hdoy' Ha']]]].
  cbn [fst snd].
  assert (Hm := month_of_day_bounds (datetime._is_leap y) doy
                  ltac:(destruct (datetime._is_leap y); lia)).
  assert (Hm' := month_of_day_bounds (datetime._is_leap y') doy'
                   ltac:(destruct (datetime._is_leap y'); lia)).
  destruct (Z.lt_trichotomy y y') as [Hlt|[Heq|Hgt]].
  - lia.
  - subst y'.
    assert (Hmono := month_of_day_mono (datetime._is_leap y) doy doy'
                       ltac:(lia)
                       ltac:(destruct (datetime._is_leap y); lia)).
    lia.
  - assert (H := _days_before_year_lt y' y Hgt).
    destruct (datetime._is_leap y'); lia.
Qed.

(** ** No paying month is lost *)

Lemma in_range (lo hi k : Z) : lo <= k <= hi -> In k (pd.range lo hi).
Proof.
  intros H. unfold pd.range. apply in_map_iff.
  exists (Z.to_nat (k - lo)). split; [lia|]. apply in_seq. lia.
Qed.

(** The month of every date has a bin. *)
Lemma in_bins (l : list datetime.date) (d : datetime.date) :
  In d l -> In (pd.month_number d) (pd.bins l).
Proof.
  destruct l as [|d0 l]; [intros []|]. intros Hin. unfold pd.bins.
  destruct (fold_min_spec l d0) as [_ Hmin].
  destruct (fold_max_spec l d0) as [_ Hmax].
  apply in_range. split; apply month_number_mono; auto.
Qed.

Lemma total_nonzero {A : Type} (f : A -> decimal.Decimal) (l : list A) :
  total (map f l) <> 0%Qc -> exists x, In x l /\ f x <> 0%Qc.
Proof.
  induction l as [|x l IH]; intros H; [now destruct H|].
  destruct (Qc_eq_dec (f x) 0%Qc) as [Hx|Hx].
  - destruct IH as [x' [Hin Hx']].
    + intros Hl. apply H. cbn [map total fold_right].
      fold (total (map f l)). rewrite Hx, Hl. decimal_eq.
    + exists x'. split; [now right | exact Hx'].
  - exists x. split; [now left | exact Hx].
Qed.

(** A frame that pays in a month has a date in it. *)
Lemma paid_in_month_date (k : Z) (df : pd.DataFrame) :
  paid_in_month k df <> 0%Qc ->
  exists d, In d (pd.index df) /\ pd.month_number d = k.
Proof.
  unfold paid_in_month. intros H.
  destruct (pd.in_month k (pd.rows df)) as [|r rs] eqn:Hm;
    [now destruct H|].
  assert (Hr : In r (pd.in_month k (pd.rows df))) by (rewrite Hm; now left).
  apply filter_In in Hr. destruct Hr as [Hr Hk]. exists (fst r). split.
  - unfold pd.index. now apply in_map.
  - now apply Z.eqb_eq.
Qed.

Lemma report_of_complete (v : pd.version) (dfs : list pd.DataFrame)
    (k : Z) :
  total (map (paid_in_month k) dfs) <> 0%Qc ->
  In (pd.strftime_Y_m k, reported v (total (map (paid_in_month k) dfs)))
    (report_of v dfs).
Proof.
  intros H.
  assert (Hk : In k (pd.bins (all_dates dfs))).
  { destruct (total_nonzero _ _ H) as [df [Hdf Hpaid]].
    destruct (paid_in_month_date k df Hpaid) as [d [Hd <-]].
    apply in_bins, all_dates_in. eauto. }
  destruct v; cbn [report_of reported]; apply filter_In; split;
    try (apply in_map_iff; exists k; split; [reflexivity | exact Hk]);
    cbn [snd]; apply negb_true_iff, is_zero_false.
  - exact H.
  - apply Qcmult_nonzero; [discriminate | exact H].
Qed.


